(* ===================================================================== *)
(* provider-stormforge: the TestCase controller                          *)
(*                                                                       *)
(* A shallow embedding of internal/controller/testcase/testcase.go and   *)
(* of the API types of apis/load/v1alpha1/types.go it works on.          *)
(*                                                                       *)
(* Calls that leave the package (the forge command line, the Kubernetes  *)
(* client, the usage tracker, the credential extractor) are answered by  *)
(* an environment and recorded, with everything printed to standard      *)
(* output, in a trace kept in program order.                             *)
(* ===================================================================== *)

From Stdlib Require Import String Ascii List NArith Arith Bool Lia.
From stdpp Require Import base strings list gmap.
Import ListNotations.

Set Warnings "-register-all".

Local Open Scope string_scope.
Local Open Scope list_scope.

(* --------------------------------------------------------------------- *)
(* Go error values                                                        *)
(* --------------------------------------------------------------------- *)

(** The error values the controller builds or passes on.  [New] and [Wrap]
    are github.com/pkg/errors' constructors; [Foreign] is an error handed
    back by a collaborator (its text is the collaborator's);
    [SyntaxError] and [UnmarshalTypeError] are the two errors of
    encoding/json that Unmarshal can return here. *)
Inductive error : Type :=
| New (text : string)
| Wrap (cause : error) (message : string)
| Foreign (text : string)
| SyntaxError
| UnmarshalTypeError (Value : string).

Definition errNotMyType : string := "managed resource is not a TestCase custom resource".
Definition errTrackPCUsage : string := "cannot track ProviderConfig usage".
Definition errGetPC : string := "cannot get ProviderConfig".
Definition errGetCreds : string := "cannot get credentials".
Definition errNewClient : string := "cannot create new Service".

(* --------------------------------------------------------------------- *)
(* apis/load/v1alpha1                                                     *)
(* --------------------------------------------------------------------- *)

Module v1alpha1.

(** xpv1.Reference: a reference to another object, by name. *)
Record Reference : Type := { RefName : string }.

(** Modelled from the spec: testcase.go reads Spec.ForProvider.Org and
    Spec.ForProvider.Name, which types.go does not declare; section 3
    gives the desired state the fields organization: string and
    name: string.  ConfigurableField is the field types.go declares. *)
Record TestCaseParameters : Type :=
  { ConfigurableField : string;
    Org : string;
    Name : string }.

Record TestCaseObservation : Type := { ObservableField : string }.

(** xpv1.ResourceSpec is inlined; of it the controller reads the
    provider config reference only, and dereferences it without a nil
    test: the model takes test cases whose reference is set. *)
Record TestCaseSpec : Type :=
  { ProviderConfigReference : Reference;
    ForProvider : TestCaseParameters }.

Record TestCaseStatus : Type := { AtProvider : TestCaseObservation }.

Record TestCase : Type :=
  { ObjectName : string;
    Spec : TestCaseSpec;
    Status : TestCaseStatus }.

End v1alpha1.

(** resource.Managed is an interface; the controller only ever asks
    whether the value behind it is a *v1alpha1.TestCase. *)
Inductive Managed : Type :=
| MgTestCase (cr : v1alpha1.TestCase)
| MgOther (kind : string).

(* --------------------------------------------------------------------- *)
(* apis/v1alpha1: the provider configuration                              *)
(* --------------------------------------------------------------------- *)

(** xpv1.CommonCredentialSelectors: where the secret material lives. *)
Record CommonCredentialSelectors : Type :=
  { Fs : option string;
    Env : option string;
    SecretRef : option (string * string * string) }.

(** Modelled from the spec: apis/v1alpha1 is not among the sources; per
    section 6 a configuration object carries a credential-source
    selector, which is what Connect reads from pc.Spec.Credentials. *)
Record ProviderCredentials : Type :=
  { Source : string;
    Selectors : CommonCredentialSelectors }.

Record ProviderConfig : Type := { Credentials : ProviderCredentials }.

(* --------------------------------------------------------------------- *)
(* crossplane-runtime/pkg/reconciler/managed: results                     *)
(* --------------------------------------------------------------------- *)

Module managed.

(** map[string][]byte; [None] is the nil map of a zero value. *)
Definition ConnectionDetails : Type := option (gmap string string).

Definition details_len (cd : ConnectionDetails) : nat :=
  match cd with
  | None => 0
  | Some m => size m
  end.

(** Of the library's result structs the fields the controller sets;
    every other field keeps its zero value on every path. *)
Record ExternalObservation : Type :=
  { ResourceExists : bool;
    ResourceUpToDate : bool;
    ObservationDetails : ConnectionDetails }.

Record ExternalCreation : Type := { CreationDetails : ConnectionDetails }.

Record ExternalUpdate : Type := { UpdateDetails : ConnectionDetails }.

(** The composite literals with no field given. *)
Definition zeroObservation : ExternalObservation :=
  {| ResourceExists := false; ResourceUpToDate := false; ObservationDetails := None |}.
Definition zeroCreation : ExternalCreation := {| CreationDetails := None |}.
Definition zeroUpdate : ExternalUpdate := {| UpdateDetails := None |}.

End managed.

(* --------------------------------------------------------------------- *)
(* Effects: what a call leaves behind                                     *)
(* --------------------------------------------------------------------- *)

(** An operand of fmt.Println / fmt.Printf. *)
Inductive Printed : Type :=
| PText (s : string)
| PError (e : error)
| PTestCase (cr : v1alpha1.TestCase)
| PBool (b : bool).

Inductive Event : Type :=
| EvPrintln (args : list Printed)
| EvPrintf (format : string) (args : list Printed)
| EvExec (argv : list string)
| EvTrack (mg : Managed)
| EvKubeGet (name : string)
| EvExtractCreds (source : string) (sel : CommonCredentialSelectors).

(** A computation: its result and the events it emitted, oldest first. *)
Definition M (A : Type) : Type := (A * list Event)%type.

Definition ret {A : Type} (a : A) : M A := (a, []).

Definition bind {A B : Type} (m : M A) (k : A -> M B) : M B :=
  let '(a, t1) := m in
  let '(b, t2) := k a in
  (b, t1 ++ t2).

Definition emit (e : Event) : M unit := (tt, [e]).

Notation "x <- m ;; k" := (bind m (fun x => k))
  (at level 100, m at next level, right associativity).
Notation "m ;;; k" := (bind m (fun _ => k))
  (at level 100, right associativity).

Definition result {A : Type} (m : M A) : A := fst m.
Definition trace {A : Type} (m : M A) : list Event := snd m.

(** The commands run through os/exec, in order. *)
Fixpoint exec_calls (t : list Event) : list (list string) :=
  match t with
  | [] => []
  | EvExec argv :: t' => argv :: exec_calls t'
  | _ :: t' => exec_calls t'
  end.

Definition is_print (e : Event) : bool :=
  match e with
  | EvPrintln _ | EvPrintf _ _ => true
  | _ => false
  end.

(** Every call that leaves the process (command line, tracker, kube
    client, credential extractor), in order; printing is left out. *)
Definition calls (t : list Event) : list Event :=
  List.filter (fun e => negb (is_print e)) t.

(* --------------------------------------------------------------------- *)
(* Collaborators                                                          *)
(* --------------------------------------------------------------------- *)

(** client.Client, of which Connect uses Get on a ProviderConfig. *)
Record Client : Type :=
  { Get : string -> ProviderConfig * option error }.

(** resource.Tracker. *)
Record Tracker : Type :=
  { Track : Managed -> option error }.

(** What the host process answers: the standard output and error of
    exec.Command(argv...).Output(), and the result of
    resource.CommonCredentialExtractor. *)
Record Host : Type :=
  { Output : list string -> string * option error;
    CommonCredentialExtractor :
      string -> Client -> CommonCredentialSelectors -> string * option error }.

(* --------------------------------------------------------------------- *)
(* encoding/json, as far as Unmarshal into forgeApiResponse goes          *)
(* --------------------------------------------------------------------- *)

Module json.

(** A JSON text, read.  An object keeps its members in the order of the
    text, repeated keys included: the decoder visits them one by one. *)
Inductive value : Type :=
| JNull
| JBool (b : bool)
| JNumber (literal : string)
| JString (s : string)
| JArray (elements : list value)
| JObject (members : list (string * value)).

Definition code (c : ascii) : N := N_of_ascii c.
Definition chr (n : N) : ascii := ascii_of_N n.

Definition quote : ascii := chr 34.
Definition backslash : ascii := chr 92.

Definition is_space (c : ascii) : bool :=
  let n := code c in
  N.eqb n 32 || N.eqb n 9 || N.eqb n 13 || N.eqb n 10.

Definition is_digit (c : ascii) : bool :=
  let n := code c in N.leb 48 n && N.leb n 57.

Fixpoint skip_space (s : list ascii) : list ascii :=
  match s with
  | c :: rest => if is_space c then skip_space rest else s
  | [] => []
  end.

Fixpoint span_digits (s : list ascii) : list ascii * list ascii :=
  match s with
  | c :: rest =>
      if is_digit c
      then let '(ds, r) := span_digits rest in (c :: ds, r)
      else ([], s)
  | [] => ([], [])
  end.

(** The value of a hexadecimal digit. *)
Definition hex (c : ascii) : option N :=
  let n := code c in
  if N.leb 48 n && N.leb n 57 then Some (n - 48)%N
  else if N.leb 97 n && N.leb n 102 then Some (n - 87)%N
  else if N.leb 65 n && N.leb n 70 then Some (n - 55)%N
  else None.

(** getu4: the rune of the four hexadecimal digits after a \u. *)
Definition getu4 (a b c d : ascii) : option N :=
  match hex a, hex b, hex c, hex d with
  | Some x, Some y, Some z, Some w => Some (((x * 16 + y) * 16 + z) * 16 + w)%N
  | _, _, _, _ => None
  end.

Definition RuneError : N := 65533.

Definition is_surrogate (r : N) : bool := N.leb 55296 r && N.ltb r 57344.

(** utf16.DecodeRune: the rune of a surrogate pair, RuneError when the
    two halves do not form one. *)
Definition utf16_DecodeRune (r1 r2 : N) : N :=
  if N.leb 55296 r1 && N.ltb r1 56320 && N.leb 56320 r2 && N.ltb r2 57344
  then ((r1 - 55296) * 1024 + (r2 - 56320) + 65536)%N
  else RuneError.

(** utf8.EncodeRune. *)
Definition utf8_EncodeRune (r : N) : list ascii :=
  if N.leb r 127 then [chr r]
  else if N.leb r 2047 then [chr (192 + r / 64); chr (128 + r mod 64)]
  else if is_surrogate r || N.ltb 1114111 r then [chr 239; chr 191; chr 189]
  else if N.leb r 65535
       then [chr (224 + r / 4096); chr (128 + (r / 64) mod 64); chr (128 + r mod 64)]
       else [chr (240 + r / 262144); chr (128 + (r / 4096) mod 64);
             chr (128 + (r / 64) mod 64); chr (128 + r mod 64)].

Definition in_range (lo hi : N) (c : ascii) : bool :=
  N.leb lo (code c) && N.leb (code c) hi.

Definition is_cont (c : ascii) : bool := in_range 128 191 c.

(** utf8.DecodeRune on a first byte of 0x80 and above: the number of
    bytes that follow it in a well-formed encoding, [None] where the
    decoder answers (RuneError, 1). *)
Definition utf8_tail (c : ascii) (rest : list ascii) : option nat :=
  let n := code c in
  let second (lo hi : N) (more : nat) : option nat :=
    match rest with
    | c1 :: rest1 =>
        if in_range lo hi c1 && forallb is_cont (firstn more rest1)
           && Nat.eqb (List.length (firstn more rest1)) more
        then Some (S more) else None
    | [] => None
    end in
  if N.ltb n 194 then None
  else if N.leb n 223 then second 128%N 191%N 0
  else if N.eqb n 224 then second 160%N 191%N 1
  else if N.leb n 236 then second 128%N 191%N 1
  else if N.eqb n 237 then second 128%N 159%N 1
  else if N.leb n 239 then second 128%N 191%N 1
  else if N.eqb n 240 then second 144%N 191%N 2
  else if N.leb n 243 then second 128%N 191%N 2
  else if N.eqb n 244 then second 128%N 143%N 2
  else None.

Definition simple_escape (c : ascii) : option ascii :=
  let n := code c in
  if N.eqb n 34 || N.eqb n 92 || N.eqb n 47 then Some c
  else if N.eqb n 98 then Some (chr 8)
  else if N.eqb n 102 then Some (chr 12)
  else if N.eqb n 110 then Some (chr 10)
  else if N.eqb n 114 then Some (chr 13)
  else if N.eqb n 116 then Some (chr 9)
  else None.

Definition emit_then (bs : list ascii) (k : option (list ascii * list ascii))
  : option (list ascii * list ascii) :=
  match k with
  | Some (decoded, rest) => Some (bs ++ decoded, rest)
  | None => None
  end.

(** A string literal from just after its opening quote: the bytes it
    denotes (escapes replaced, ill-formed UTF-8 coerced to U+FFFD, as
    unquote does) and the text after the closing quote.  [pending] counts
    the continuation bytes still owed to a multi-byte character. *)
Fixpoint unquote (pending : nat) (s : list ascii) {struct s}
  : option (list ascii * list ascii) :=
  match s with
  | [] => None
  | c :: rest =>
      match pending with
      | S p => emit_then [c] (unquote p rest)
      | 0 =>
          if Ascii.eqb c quote then Some ([], rest)
          else if Ascii.eqb c backslash then
            match rest with
            | [] => None
            | e :: rest1 =>
                match simple_escape e with
                | Some b => emit_then [b] (unquote 0 rest1)
                | None =>
                    if N.eqb (code e) 117 then
                      match rest1 with
                      | h1 :: h2 :: h3 :: h4 :: rest2 =>
                          match getu4 h1 h2 h3 h4 with
                          | None => None
                          | Some rr =>
                              if is_surrogate rr then
                                match rest2 with
                                | b :: u :: l1 :: l2 :: l3 :: l4 :: rest3 =>
                                    match
                                      (if Ascii.eqb b backslash && N.eqb (code u) 117
                                       then getu4 l1 l2 l3 l4 else None)
                                    with
                                    | Some rr1 =>
                                        let dec := utf16_DecodeRune rr rr1 in
                                        if N.eqb dec RuneError
                                        then emit_then (utf8_EncodeRune RuneError) (unquote 0 rest2)
                                        else emit_then (utf8_EncodeRune dec) (unquote 0 rest3)
                                    | None =>
                                        emit_then (utf8_EncodeRune RuneError) (unquote 0 rest2)
                                    end
                                | _ => emit_then (utf8_EncodeRune RuneError) (unquote 0 rest2)
                                end
                              else emit_then (utf8_EncodeRune rr) (unquote 0 rest2)
                          end
                      | _ => None
                      end
                    else None
                end
            end
          else if N.ltb (code c) 32 then None
          else if N.ltb (code c) 128 then emit_then [c] (unquote 0 rest)
          else
            match utf8_tail c rest with
            | Some n => emit_then [c] (unquote n rest)
            | None => emit_then (utf8_EncodeRune RuneError) (unquote 0 rest)
            end
      end
  end.

(** A number literal: an optional minus sign; a zero, or a non-zero digit
    and any digits; optionally a point and one digit or more; optionally
    e or E, an optional sign and one digit or more. *)
Definition scan_number (s : list ascii) : option (list ascii * list ascii) :=
  let '(sign, s1) :=
    match s with
    | c :: r => if N.eqb (code c) 45 then ([c], r) else ([], s)
    | [] => ([], s)
    end in
  let int_part :=
    match s1 with
    | c :: r =>
        if N.eqb (code c) 48 then Some ([c], r)
        else if is_digit c then let '(ds, r') := span_digits r in Some (c :: ds, r')
        else None
    | [] => None
    end in
  match int_part with
  | None => None
  | Some (ip, s2) =>
      let frac :=
        match s2 with
        | c :: r =>
            if N.eqb (code c) 46 then
              match span_digits r with
              | ([], _) => None
              | (ds, r') => Some (c :: ds, r')
              end
            else Some ([], s2)
        | [] => Some ([], s2)
        end in
      match frac with
      | None => None
      | Some (fp, s3) =>
          let exp :=
            match s3 with
            | c :: r =>
                if N.eqb (code c) 101 || N.eqb (code c) 69 then
                  let '(sg, r1) :=
                    match r with
                    | c1 :: r' =>
                        if N.eqb (code c1) 43 || N.eqb (code c1) 45
                        then ([c1], r') else ([], r)
                    | [] => ([], r)
                    end in
                  match span_digits r1 with
                  | ([], _) => None
                  | (ds, r2) => Some (c :: sg ++ ds, r2)
                  end
                else Some ([], s3)
            | [] => Some ([], s3)
            end in
          match exp with
          | None => None
          | Some (ep, s4) => Some (sign ++ ip ++ fp ++ ep, s4)
          end
      end
  end.

(** [strip_prefix p s]: [s] without its prefix [p]. *)
Fixpoint strip_prefix (p s : list ascii) : option (list ascii) :=
  match p, s with
  | [], _ => Some s
  | a :: p', b :: s' => if Ascii.eqb a b then strip_prefix p' s' else None
  | _ :: _, [] => None
  end.

Definition text (s : list ascii) : string := string_of_list_ascii s.
Definition bytes (s : string) : list ascii := list_ascii_of_string s.

(** The scanner refuses a text nested deeper than this. *)
Definition maxNestingDepth : N := 10000.

(** One JSON value at the head of [s], read by recursive descent, and the
    text after it.  [depth] counts the arrays and objects open around the
    value; every call uses up one of [fuel]. *)
Fixpoint parse_value (fuel : nat) (depth : N) (s : list ascii) {struct fuel}
  : option (value * list ascii) :=
  match fuel with
  | 0 => None
  | S fuel' =>
      match skip_space s with
      | [] => None
      | c :: rest =>
          let n := code c in
          if N.eqb n 123 then
            if N.ltb depth maxNestingDepth then
              match skip_space rest with
              | c1 :: rest1 =>
                  if N.eqb (code c1) 125 then Some (JObject [], rest1)
                  else parse_members fuel' (depth + 1)%N rest []
              | [] => None
              end
            else None
          else if N.eqb n 91 then
            if N.ltb depth maxNestingDepth then
              match skip_space rest with
              | c1 :: rest1 =>
                  if N.eqb (code c1) 93 then Some (JArray [], rest1)
                  else parse_elements fuel' (depth + 1)%N rest []
              | [] => None
              end
            else None
          else if N.eqb n 34 then
            match unquote 0 rest with
            | Some (decoded, r) => Some (JString (text decoded), r)
            | None => None
            end
          else if N.eqb n 45 || is_digit c then
            match scan_number (c :: rest) with
            | Some (lit, r) => Some (JNumber (text lit), r)
            | None => None
            end
          else if N.eqb n 116 then
            option_map (fun r => (JBool true, r)) (strip_prefix (bytes "true") (c :: rest))
          else if N.eqb n 102 then
            option_map (fun r => (JBool false, r)) (strip_prefix (bytes "false") (c :: rest))
          else if N.eqb n 110 then
            option_map (fun r => (JNull, r)) (strip_prefix (bytes "null") (c :: rest))
          else None
      end
  end

with parse_elements (fuel : nat) (depth : N) (s : list ascii) (acc : list value)
       {struct fuel} : option (value * list ascii) :=
  match fuel with
  | 0 => None
  | S fuel' =>
      match parse_value fuel' depth s with
      | None => None
      | Some (v, r) =>
          match skip_space r with
          | c :: r' =>
              if N.eqb (code c) 44 then parse_elements fuel' depth r' (v :: acc)
              else if N.eqb (code c) 93 then Some (JArray (rev (v :: acc)), r')
              else None
          | [] => None
          end
      end
  end

with parse_members (fuel : nat) (depth : N) (s : list ascii)
       (acc : list (string * value)) {struct fuel} : option (value * list ascii) :=
  match fuel with
  | 0 => None
  | S fuel' =>
      match skip_space s with
      | c :: r =>
          if N.eqb (code c) 34 then
            match unquote 0 r with
            | None => None
            | Some (key, r1) =>
                match skip_space r1 with
                | c1 :: r2 =>
                    if N.eqb (code c1) 58 then
                      match parse_value fuel' depth r2 with
                      | None => None
                      | Some (v, r3) =>
                          match skip_space r3 with
                          | c2 :: r4 =>
                              if N.eqb (code c2) 44
                              then parse_members fuel' depth r4 ((text key, v) :: acc)
                              else if N.eqb (code c2) 125
                                   then Some (JObject (rev ((text key, v) :: acc)), r4)
                                   else None
                          | [] => None
                          end
                      end
                    else None
                | [] => None
                end
            end
          else None
      | [] => None
      end
  end.

(** checkValid and the reading of the text in one: a whole text is one
    value with nothing but white space after it.  The fuel given is never
    used up: any larger amount gives the same answer (parse_fuel_enough
    below). *)
Definition parse (data : string) : option value :=
  let s := bytes data in
  match parse_value (2 * List.length s + 2) 0%N s with
  | Some (v, rest) =>
      match skip_space rest with
      | [] => Some v
      | _ :: _ => None
      end
  | None => None
  end.

(* ----- decoding into Go values ----- *)

(** saveError keeps the first error only. *)
Definition saveError (saved new : option error) : option error :=
  match saved with
  | Some _ => saved
  | None => new
  end.

(** The Value of the UnmarshalTypeError raised for [j]. *)
Definition kind_of (j : value) : string :=
  match j with
  | JNull => "null"
  | JBool _ => "bool"
  | JNumber _ => "number"
  | JString _ => "string"
  | JArray _ => "array"
  | JObject _ => "object"
  end.

Definition mismatch {T : Type} (j : value) (cur : T) : T * option error :=
  (cur, Some (UnmarshalTypeError (kind_of j))).

(** Into a Go string: a JSON string is stored, null leaves the field as
    it is, anything else is a type error and leaves it as it is. *)
Definition storeString (j : value) (cur : string) : string * option error :=
  match j with
  | JString s => (s, None)
  | JNull => (cur, None)
  | _ => mismatch j cur
  end.

(** equalFoldRight: [key] equals the ASCII field name [name] up to the
    case of letters, the long s (U+017F) standing for s and the Kelvin
    sign (U+212A) for k. *)
Fixpoint equalFold (name key : list ascii) {struct name} : bool :=
  match name with
  | [] => match key with [] => true | _ :: _ => false end
  | sb :: name' =>
      match key with
      | [] => false
      | tb :: key' =>
          if N.ltb (code tb) 128 then
            if Ascii.eqb sb tb then equalFold name' key'
            else
              let up := N.land (code sb) 223 in
              if N.leb 65 up && N.leb up 90 && N.eqb up (N.land (code tb) 223)
              then equalFold name' key'
              else false
          else if N.eqb (N.land (code sb) 223) 83 then
            match key' with
            | t1 :: key'' =>
                if N.eqb (code tb) 197 && N.eqb (code t1) 191
                then equalFold name' key'' else false
            | [] => false
            end
          else if N.eqb (N.land (code sb) 223) 75 then
            match key' with
            | t1 :: t2 :: key'' =>
                if N.eqb (code tb) 226 && N.eqb (code t1) 132 && N.eqb (code t2) 170
                then equalFold name' key'' else false
            | _ => false
            end
          else false
      end
  end.

(** The struct field a key names: the one spelled exactly like it, else
    the first one equal to it under [equalFold]. *)
Definition field_of (names : list string) (key : string) : option string :=
  match List.find (String.eqb key) names with
  | Some f => Some f
  | None => List.find (fun f => equalFold (bytes f) (bytes key)) names
  end.

(** Into a Go struct: the members of an object are stored one after the
    other by [set] (which leaves alone a key that names no field), null
    leaves the struct as it is, anything else is a type error. *)
Definition storeStruct {T : Type} (set : string -> value -> T -> T * option error)
    (j : value) (cur : T) : T * option error :=
  match j with
  | JObject members =>
      fold_left
        (fun (st : T * option error) (m : string * value) =>
           let '(x, err) := set (fst m) (snd m) (fst st) in
           (x, saveError (snd st) err))
        members (cur, None)
  | JNull => (cur, None)
  | _ => mismatch j cur
  end.

(** A Go slice: its backing array, of which the first [len] values are
    the slice; the capacity is the length of [array].  The decoder stores
    an array into the slice it finds (a key met twice), element by element
    over what the backing array holds. *)
Record slice (T : Type) : Type := { array : list T; len : nat }.
Arguments array {T} _.
Arguments len {T} _.

Definition nil_slice {T : Type} : slice T := {| array := []; len := 0 |}.

Definition elements {T : Type} (s : slice T) : list T := firstn (len s) (array s).

(** A new backing array of capacity cap + cap/2, at least 4, with the
    slice copied into it. *)
Definition grow {T : Type} (zero : T) (s : slice T) : slice T :=
  let cap := List.length (array s) in
  let newcap := if Nat.ltb (cap + cap / 2) 4 then 4 else cap + cap / 2 in
  {| array := elements s ++ repeat zero (newcap - len s); len := len s |}.

(** The i-th element of a JSON array: the slice is grown and lengthened
    to hold index i, and the element is decoded into what the backing
    array holds there. *)
Definition store_element {T : Type} (zero : T) (elem : value -> T -> T * option error)
    (st : slice T * nat * option error) (j : value) : slice T * nat * option error :=
  let '(s, i, saved) := st in
  let s1 := if Nat.leb (List.length (array s)) i then grow zero s else s in
  let s2 := if Nat.leb (len s1) i then {| array := array s1; len := S i |} else s1 in
  let '(x, err) := elem j (nth i (array s2) zero) in
  ({| array := <[ i := x ]> (array s2); len := len s2 |}, S i, saveError saved err).

(** Into a Go slice: the elements of an array are stored in turn and the
    slice is cut to their number; null makes the slice nil; anything
    else is a type error. *)
Definition storeSlice {T : Type} (zero : T) (elem : value -> T -> T * option error)
    (j : value) (cur : slice T) : slice T * option error :=
  match j with
  | JArray l =>
      let '(s, i, err) := fold_left (store_element zero elem) l (cur, 0, None) in
      let s1 := if Nat.ltb i (len s) then {| array := array s; len := i |} else s in
      let s2 := if Nat.eqb i 0 then nil_slice else s1 in
      (s2, err)
  | JNull => (nil_slice, None)
  | _ => mismatch j cur
  end.

End json.

(* --------------------------------------------------------------------- *)
(* internal/controller/testcase: the forge client                         *)
(* --------------------------------------------------------------------- *)

Record forgeApiResponseDataAttributes : Type :=
  { Name : string;
    Scope : string;
    Org : string }.

Record forgeApiResponseData : Type :=
  { Id : string;
    Attributes : forgeApiResponseDataAttributes }.

Record forgeApiResponse : Type :=
  { ForgeApiResponseData : list forgeApiResponseData }.

Definition zeroAttributes : forgeApiResponseDataAttributes :=
  {| Name := ""; Scope := ""; Org := "" |}.
Definition zeroData : forgeApiResponseData :=
  {| Id := ""; Attributes := zeroAttributes |}.
Definition zeroResponse : forgeApiResponse := {| ForgeApiResponseData := [] |}.

(** The JSON names of the fields: the json tags, and the Go name of the
    untagged field Org. *)
Definition set_Attributes (key : string) (j : json.value)
    (a : forgeApiResponseDataAttributes) : forgeApiResponseDataAttributes * option error :=
  match json.field_of ["name"; "scope"; "Org"] key with
  | Some "name" =>
      let '(s, err) := json.storeString j (Name a) in
      ({| Name := s; Scope := Scope a; Org := Org a |}, err)
  | Some "scope" =>
      let '(s, err) := json.storeString j (Scope a) in
      ({| Name := Name a; Scope := s; Org := Org a |}, err)
  | Some "Org" =>
      let '(s, err) := json.storeString j (Org a) in
      ({| Name := Name a; Scope := Scope a; Org := s |}, err)
  | _ => (a, None)
  end.

Definition set_Data (key : string) (j : json.value)
    (d : forgeApiResponseData) : forgeApiResponseData * option error :=
  match json.field_of ["id"; "attributes"] key with
  | Some "id" =>
      let '(s, err) := json.storeString j (Id d) in
      ({| Id := s; Attributes := Attributes d |}, err)
  | Some "attributes" =>
      let '(a, err) := json.storeStruct set_Attributes j (Attributes d) in
      ({| Id := Id d; Attributes := a |}, err)
  | _ => (d, None)
  end.

(** The response while it is decoded: its one field, as a slice. *)
Definition set_Response (key : string) (j : json.value)
    (r : json.slice forgeApiResponseData) : json.slice forgeApiResponseData * option error :=
  match json.field_of ["data"] key with
  | Some "data" => json.storeSlice zeroData (json.storeStruct set_Data) j r
  | _ => (r, None)
  end.

(** json.Unmarshal(data, &r) for r a zero forgeApiResponse: a text that is
    not JSON is a SyntaxError and leaves r alone; otherwise the value is
    stored and the first type error met, if any, is returned. *)
Definition json_Unmarshal (data : string) : forgeApiResponse * option error :=
  match json.parse data with
  | None => (zeroResponse, Some SyntaxError)
  | Some j =>
      let '(s, err) := json.storeStruct set_Response j json.nil_slice in
      ({| ForgeApiResponseData := json.elements s |}, err)
  end.

(** The methods of forge are forge_ping, forge_exists and forge_create
    below (exists is a reserved word here). *)
Record forge : Type := { jwtToken : string }.

Definition NewForge (jwtToken : string) : forge * option error :=
  ({| jwtToken := jwtToken |}, None).

Section Client.

Variable host : Host.

(** exec.Command(argv...).Output() *)
Definition run (argv : list string) : M (string * option error) :=
  emit (EvExec argv) ;;; ret (Output host argv).

Definition Println (args : list Printed) : M unit := emit (EvPrintln args).
Definition Printf (format : string) (args : list Printed) : M unit :=
  emit (EvPrintf format args).

(** The three command lines of the client. *)
Definition ping_argv : list string := ["forge"; "ping"].
Definition list_argv (org : string) : list string :=
  ["forge"; "--output"; "json"; "test-case"; "list"; org].
Definition create_argv (org name : string) : list string :=
  ["forge"; "test-case"; "create"; org +:+ "/" +:+ name; "examples/sample/loadtest.mjs"].

Definition forge_ping (f : forge) : M (option error) :=
  out <- run ping_argv ;;
  match snd out with
  | Some err => Println [PError err] ;;; ret (Some err)
  | None => Println [PText (fst out)] ;;; ret None
  end.

(** The loop of exists over the decoded records. *)
Fixpoint find_name (l : list forgeApiResponseData) (name : string) : bool * option error :=
  match l with
  | [] => (false, None)
  | element :: rest =>
      if String.eqb (Name (Attributes element)) name
      then (true, None)
      else find_name rest name
  end.

Definition forge_exists (f : forge) (org name : string) : M (bool * option error) :=
  out <- run (list_argv org) ;;
  match snd out with
  | Some err => Println [PError err] ;;; ret (false, Some err)
  | None =>
      let '(r, uerr) := json_Unmarshal (fst out) in
      match uerr with
      | Some err => Println [PError err] ;;; ret (false, Some err)
      | None => ret (find_name (ForgeApiResponseData r) name)
      end
  end.

Definition forge_create (f : forge) (org name : string) : M (option error) :=
  out <- run (create_argv org name) ;;
  match snd out with
  | Some err => Println [PError err] ;;; ret (Some err)
  | None => Println [PText ("create: " +:+ fst out)] ;;; ret None
  end.

(* ------------------------------------------------------------------- *)
(* The connector and the external client                                *)
(* ------------------------------------------------------------------- *)

Record connector : Type := { kube : Client; usage : Tracker }.

(** The field is called forge in the source, like its type. *)
Record external : Type := { client : forge }.

Definition track (c : connector) (mg : Managed) : M (option error) :=
  emit (EvTrack mg) ;;; ret (Track (usage c) mg).

Definition kube_get (c : connector) (name : string) : M (ProviderConfig * option error) :=
  emit (EvKubeGet name) ;;; ret (Get (kube c) name).

Definition extract (c : connector) (cd : ProviderCredentials) : M (string * option error) :=
  emit (EvExtractCreds (Source cd) (Selectors cd)) ;;;
  ret (CommonCredentialExtractor host (Source cd) (kube c) (Selectors cd)).

Definition Connect (c : connector) (mg : Managed) : M (option external * option error) :=
  Printf "MDL Connect\n" [] ;;;
  match mg with
  | MgOther _ => ret (None, Some (New errNotMyType))
  | MgTestCase cr =>
      terr <- track c mg ;;
      match terr with
      | Some err => ret (None, Some (Wrap err errTrackPCUsage))
      | None =>
          got <- kube_get c (v1alpha1.RefName
                               (v1alpha1.ProviderConfigReference (v1alpha1.Spec cr))) ;;
          match snd got with
          | Some err => ret (None, Some (Wrap err errGetPC))
          | None =>
              let cd := Credentials (fst got) in
              creds <- extract c cd ;;
              match snd creds with
              | Some err => ret (None, Some (Wrap err errGetCreds))
              | None =>
                  Printf "MDL pc.Spec.Credentials.data: %+v\n" [PText (fst creds)] ;;;
                  match NewForge (fst creds) with
                  | (_, Some err) => ret (None, Some (Wrap err errNewClient))
                  | (f, None) =>
                      forge_ping f ;;;
                      ret (Some {| client := f |}, None)
                  end
              end
          end
      end
  end.

Definition Observe (c : external) (mg : Managed)
  : M (managed.ExternalObservation * option error) :=
  match mg with
  | MgOther _ => ret (managed.zeroObservation, Some (New errNotMyType))
  | MgTestCase testCase =>
      let p := v1alpha1.ForProvider (v1alpha1.Spec testCase) in
      found <- forge_exists (client c) (v1alpha1.Org p) (v1alpha1.Name p) ;;
      let exists_ := fst found in
      Printf "MDL Observing: %+v\n" [PTestCase testCase] ;;;
      Printf "MDL Observing TestCase Exists: %+v\n" [PBool exists_] ;;;
      ret ({| managed.ResourceExists := exists_;
              managed.ResourceUpToDate := true;
              managed.ObservationDetails := Some ∅ |}, None)
  end.

Definition Create (c : external) (mg : Managed)
  : M (managed.ExternalCreation * option error) :=
  match mg with
  | MgOther _ => ret (managed.zeroCreation, Some (New errNotMyType))
  | MgTestCase cr =>
      let p := v1alpha1.ForProvider (v1alpha1.Spec cr) in
      Printf "MDL Creating: %+v\n" [PTestCase cr] ;;;
      cerr <- forge_create (client c) (v1alpha1.Org p) (v1alpha1.Name p) ;;
      match cerr with
      | Some err => ret (managed.zeroCreation, Some err)
      | None => ret ({| managed.CreationDetails := Some ∅ |}, None)
      end
  end.

Definition Update (c : external) (mg : Managed)
  : M (managed.ExternalUpdate * option error) :=
  match mg with
  | MgOther _ => ret (managed.zeroUpdate, Some (New errNotMyType))
  | MgTestCase cr =>
      Printf "MDL Updating: %+v\n" [PTestCase cr] ;;;
      ret ({| managed.UpdateDetails := Some ∅ |}, None)
  end.

Definition Delete (c : external) (mg : Managed) : M (option error) :=
  match mg with
  | MgOther _ => ret (Some (New errNotMyType))
  | MgTestCase cr =>
      Printf "MDL Deleting: %+v" [PTestCase cr] ;;;
      ret None
  end.

End Client.

(* --------------------------------------------------------------------- *)
(* Fixtures: the scenarios of section 8                                   *)
(* --------------------------------------------------------------------- *)

(** A JSON text written with apostrophes for its quotation marks. *)
Definition dq (s : string) : string :=
  string_of_list_ascii
    (List.map (fun c => if Ascii.eqb c "'"%char then json.quote else c)
              (list_ascii_of_string s)).

(** A host that answers the ping, the listing and every other command
    (the creation) as given, and whose credentials resolve as given. *)
Definition host_of (ping listing creation creds : string * option error) : Host :=
  {| Output := fun argv =>
       match argv with
       | ["forge"; "ping"] => ping
       | "forge" :: "--output" :: _ => listing
       | _ => creation
       end;
     CommonCredentialExtractor := fun _ _ _ => creds |}.

Definition exit1 : error := Foreign "exit status 1".

Definition host_empty : Host :=
  host_of ("pong", None) (dq "{'data':[]}", None) ("created", None) ("token", None).

Definition host_present : Host :=
  host_of ("", Some exit1)
          (dq "{'data':[{'id':'1','attributes':{'name':'load-1','scope':'acme'}}]}", None)
          ("", Some exit1) ("token", None).

Definition host_malformed : Host :=
  host_of ("pong", None) ("<html>bad gateway</html>", None) ("created", None) ("token", None).

Definition host_down : Host :=
  host_of ("", Some exit1) ("", Some exit1) ("", Some exit1) ("", Some (Foreign "no secret")).

Definition load1 : v1alpha1.TestCase :=
  {| v1alpha1.ObjectName := "load-1";
     v1alpha1.Spec :=
       {| v1alpha1.ProviderConfigReference := {| v1alpha1.RefName := "default" |};
          v1alpha1.ForProvider :=
            {| v1alpha1.ConfigurableField := "";
               v1alpha1.Org := "acme";
               v1alpha1.Name := "load-1" |} |};
     v1alpha1.Status := {| v1alpha1.AtProvider := {| v1alpha1.ObservableField := "" |} |} |}.

Definition pc_default : ProviderConfig :=
  {| Credentials :=
       {| Source := "Secret";
          Selectors := {| Fs := None; Env := None;
                          SecretRef := Some ("crossplane-system", "forge", "jwt") |} |} |}.

Definition kube_ok : Client := {| Get := fun _ => (pc_default, None) |}.
Definition kube_missing : Client :=
  {| Get := fun _ =>
       ({| Credentials := {| Source := "";
                             Selectors := {| Fs := None; Env := None; SecretRef := None |} |} |},
        Some (Foreign "ProviderConfig.stormforge.crossplane.io default not found")) |}.

Definition usage_ok : Tracker := {| Track := fun _ => None |}.
Definition usage_down : Tracker := {| Track := fun _ => Some (Foreign "cannot apply ProviderConfigUsage") |}.

Definition anyForge : forge := {| jwtToken := "token" |}.
Definition anyExternal : external := {| client := anyForge |}.

(* ===================================================================== *)
(* Properties                                                             *)
(* ===================================================================== *)

(* --------------------------------------------------------------------- *)
(* Identifiers and listings, for the statements below                     *)
(* --------------------------------------------------------------------- *)

(** [s] holds no slash. *)
Definition no_slash (s : string) : bool :=
  forallb (fun c => negb (Ascii.eqb c "/"%char)) (list_ascii_of_string s).

(** A byte that stands for itself inside a JSON string: printable ASCII
    other than the quotation mark and the backslash. *)
Definition plain (c : ascii) : bool :=
  N.leb 32 (json.code c) && N.ltb (json.code c) 127
  && negb (Ascii.eqb c json.quote) && negb (Ascii.eqb c json.backslash).

Definition plain_string (s : string) : bool := forallb plain (json.bytes s).

(** The listing the command prints for a list of records, in the shape
    the json tags of forgeApiResponse name (the shape of Scenario B):
    an object with the member data, an array of objects with id and
    attributes, the latter with name and scope; a line feed ends it. *)
Definition render_string (s : string) : list ascii :=
  json.quote :: json.bytes s ++ [json.quote].

Definition render_record (d : forgeApiResponseData) : list ascii :=
  json.bytes (dq "{'id':") ++ render_string (Id d)
  ++ json.bytes (dq ",'attributes':{'name':") ++ render_string (Name (Attributes d))
  ++ json.bytes (dq ",'scope':") ++ render_string (Scope (Attributes d))
  ++ json.bytes "}}".

Fixpoint render_records (l : list forgeApiResponseData) : list ascii :=
  match l with
  | [] => []
  | d :: rest =>
      match rest with
      | [] => render_record d
      | _ :: _ => render_record d ++ json.bytes "," ++ render_records rest
      end
  end.

Definition render (l : list forgeApiResponseData) : string :=
  json.text (json.bytes (dq "{'data':[") ++ render_records l
             ++ json.bytes "]}" ++ [json.chr 10]).

(** A record such a listing can carry: plain strings, and nothing in the
    field Org, which the listing has no member for. *)
Definition listed (d : forgeApiResponseData) : bool :=
  plain_string (Id d) && plain_string (Name (Attributes d))
  && plain_string (Scope (Attributes d)) && String.eqb (Org (Attributes d)) "".

(** The JSON value such a record is read as. *)
Definition ast_record (d : forgeApiResponseData) : json.value :=
  json.JObject
    [("id", json.JString (Id d));
     ("attributes",
      json.JObject [("name", json.JString (Name (Attributes d)));
                    ("scope", json.JString (Scope (Attributes d)))])].

(* --------------------------------------------------------------------- *)
(* The reader of JSON texts never runs out of fuel                        *)
(* --------------------------------------------------------------------- *)

Lemma skip_space_length (s : list ascii) :
  List.length (json.skip_space s) <= List.length s.
Proof.
  induction s as [|c rest IH]; simpl; [lia|].
  destruct (json.is_space c); simpl; lia.
Qed.

Lemma span_digits_length (s : list ascii) :
  List.length (snd (json.span_digits s)) <= List.length s.
Proof.
  induction s as [|c rest IH]; simpl; [lia|].
  destruct (json.is_digit c); simpl; [|lia].
  destruct (json.span_digits rest) as [ds r]. simpl in *. lia.
Qed.

Lemma strip_prefix_length (p s r : list ascii) :
  json.strip_prefix p s = Some r -> List.length r + List.length p = List.length s.
Proof.
  revert s. induction p as [|a p IH]; intros [|b s] H; simpl in *;
    try discriminate; try (injection H as <-; simpl; lia).
  destruct (Ascii.eqb a b); [|discriminate]. apply IH in H. lia.
Qed.

Lemma emit_then_inv bs k d r :
  json.emit_then bs k = Some (d, r) -> exists d', k = Some (d', r).
Proof.
  destruct k as [[d' r']|]; simpl; [|discriminate].
  intros H. injection H as _ <-. exists d'. reflexivity.
Qed.

Lemma span_digits_rest (s ds r : list ascii) :
  json.span_digits s = (ds, r) -> List.length r <= List.length s.
Proof.
  intros H. pose proof (span_digits_length s) as L. rewrite H in L. exact L.
Qed.

Ltac split_all :=
  repeat match goal with
    | H : context [match ?x with _ => _ end] |- _ =>
        let E := fresh "E" in destruct x eqn:E; try discriminate
    | H : context [if ?x then _ else _] |- _ =>
        let E := fresh "E" in destruct x eqn:E; try discriminate
    | E : json.span_digits _ = (_, _) |- _ => apply span_digits_rest in E
    | E : (_, _) = (_, _) |- _ => injection E as ? ?
    | E : Some _ = Some _ |- _ => injection E as ?
    end.

Lemma unquote_length (n : nat) :
  forall (s : list ascii) (p : nat) d r,
    List.length s <= n -> json.unquote p s = Some (d, r) -> List.length r < List.length s.
Proof.
  induction n as [|n IH]; intros s p d r Hn H.
  - destruct s; simpl in *; [discriminate | lia].
  - destruct s as [|c rest]; [discriminate|].
    simpl in H.
    destruct p as [|p].
    + split_all; subst;
        first [ apply emit_then_inv in H; destruct H as [d' H];
                apply IH in H; simpl in *; lia
              | simpl in *; lia ].
    + apply emit_then_inv in H. destruct H as [d' H]. apply IH in H; simpl in *; lia.
Qed.

Lemma scan_number_length (s lit r : list ascii) :
  json.scan_number s = Some (lit, r) -> List.length r < List.length s.
Proof.
  unfold json.scan_number. intros H.
  split_all; subst; simpl in *; lia.
Qed.

Ltac bound_with IHv IHe IHm :=
  repeat match goal with
    | E : json.skip_space ?x = _ |- _ =>
        let L := fresh "L" in
        pose proof (skip_space_length x) as L; rewrite E in L; clear E
    | E : json.unquote _ _ = Some _ |- _ => apply (unquote_length _ _ _ _ _ (le_n _)) in E
    | E : json.scan_number _ = Some _ |- _ => apply scan_number_length in E
    | E : json.strip_prefix _ _ = Some _ |- _ => apply strip_prefix_length in E
    | E : json.parse_value _ _ _ = Some _ |- _ => apply IHv in E
    | E : json.parse_elements _ _ _ _ = Some _ |- _ => apply IHe in E
    | E : json.parse_members _ _ _ _ = Some _ |- _ => apply IHm in E
    end.

Lemma parse_consumes (f : nat) :
  (forall d s v r, json.parse_value f d s = Some (v, r) -> List.length r < List.length s)
  /\ (forall d s acc v r,
        json.parse_elements f d s acc = Some (v, r) -> List.length r < List.length s)
  /\ (forall d s acc v r,
        json.parse_members f d s acc = Some (v, r) -> List.length r < List.length s).
Proof.
  induction f as [|f [IHv [IHe IHm]]].
  - repeat split; intros; discriminate.
  - split; [|split].
    + intros d s v r H. simpl in H. unfold option_map in H.
      split_all; subst; bound_with IHv IHe IHm; simpl in *; lia.
    + intros d s acc v r H. simpl in H.
      split_all; subst; bound_with IHv IHe IHm; simpl in *; lia.
    + intros d s acc v r H. simpl in H.
      split_all; subst; bound_with IHv IHe IHm; simpl in *; lia.
Qed.

Lemma parse_fuel_mono (f : nat) :
  forall g, f <= g ->
  (forall d s, 2 * List.length s < f -> json.parse_value g d s = json.parse_value f d s)
  /\ (forall d s acc, 2 * List.length s + 1 < f ->
        json.parse_elements g d s acc = json.parse_elements f d s acc)
  /\ (forall d s acc, 2 * List.length s < f ->
        json.parse_members g d s acc = json.parse_members f d s acc).
Proof.
  induction f as [|f IH]; intros g Hg.
  - repeat split; intros; lia.
  - destruct g as [|g]; [lia|]. assert (f <= g) as Hfg by lia.
    destruct (IH g Hfg) as [IHv [IHe IHm]]. clear IH.
    pose proof (parse_consumes f) as [Cv [Ce Cm]].
    split; [|split]; intros; simpl; unfold option_map;
      repeat match goal with
        | |- ?x = ?x => reflexivity
        | |- context [json.parse_value g ?d ?s] =>
            rewrite (IHv d s) by (bound_with Cv Ce Cm; simpl in *; lia)
        | |- context [json.parse_elements g ?d ?s ?acc] =>
            rewrite (IHe d s acc) by (bound_with Cv Ce Cm; simpl in *; lia)
        | |- context [json.parse_members g ?d ?s ?acc] =>
            rewrite (IHm d s acc) by (bound_with Cv Ce Cm; simpl in *; lia)
        | |- context [match ?x with _ => _ end] => destruct x eqn:?
        | |- context [if ?x then _ else _] => destruct x eqn:?
        end.
Qed.

Lemma parse_fuel_enough (data : string) (fuel : nat) :
  2 * List.length (json.bytes data) + 2 <= fuel ->
  json.parse_value fuel 0%N (json.bytes data) =
  json.parse_value (2 * List.length (json.bytes data) + 2) 0%N (json.bytes data).
Proof.
  intros H. apply (parse_fuel_mono _ fuel H). lia.
Qed.

(** Unfolds an operation down to the environment's answers. *)
Ltac step_through :=
  unfold Connect, Observe, Create, Update, Delete, forge_ping, forge_exists,
    forge_create, track, kube_get, extract, run, Println, Printf, NewForge,
    bind, emit, ret, result, trace;
  simpl.

Section FindName.

Lemma find_name_no_error (l : list forgeApiResponseData) (name : string) :
  snd (find_name l name) = None.
Proof.
  induction l as [|element rest IH]; simpl; [reflexivity|].
  destruct (String.eqb _ name); [reflexivity | exact IH].
Qed.

Lemma find_name_true (l : list forgeApiResponseData) (name : string) :
  fst (find_name l name) = true <->
  exists element, In element l /\ Name (Attributes element) = name.
Proof.
  induction l as [|element rest IH]; simpl.
  - split; [discriminate | intros [e [[] _]]].
  - destruct (String.eqb (Name (Attributes element)) name) eqn:E.
    + apply String.eqb_eq in E. split; [|reflexivity].
      intros _. exists element. split; [left; reflexivity | exact E].
    + apply String.eqb_neq in E. rewrite IH. split.
      * intros [e [Hin He]]. exists e. split; [right; exact Hin | exact He].
      * intros [e [[Heq | Hin] He]].
        -- subst e. contradiction.
        -- exists e. split; assumption.
Qed.

Lemma find_name_false (l : list forgeApiResponseData) (name : string) :
  fst (find_name l name) = false ->
  forall element, In element l -> Name (Attributes element) <> name.
Proof.
  intros Hf element Hin Heq.
  assert (fst (find_name l name) = true) as Ht
    by (apply find_name_true; exists element; split; assumption).
  rewrite Hf in Ht. discriminate.
Qed.

(** The loop looks at the names only. *)
Lemma find_name_names (l1 l2 : list forgeApiResponseData) (name : string) :
  List.map (fun e => Name (Attributes e)) l1 = List.map (fun e => Name (Attributes e)) l2 ->
  find_name l1 name = find_name l2 name.
Proof.
  revert l2. induction l1 as [|e1 r1 IH]; intros [|e2 r2] H; simpl in *;
    try discriminate; [reflexivity|].
  injection H as Hn Hr. rewrite Hn.
  destruct (String.eqb _ name); [reflexivity | apply IH; exact Hr].
Qed.

End FindName.

(** What exists returns, by the answer to the list command. *)
Lemma forge_exists_result (host : Host) (f : forge) (org name : string) :
  result (forge_exists host f org name) =
  match Output host (list_argv org) with
  | (_, Some err) => (false, Some err)
  | (out, None) =>
      match json_Unmarshal out with
      | (_, Some err) => (false, Some err)
      | (r, None) => find_name (ForgeApiResponseData r) name
      end
  end.
Proof.
  step_through.
  destruct (Output host (list_argv org)) as [out [err|]]; simpl; [reflexivity|].
  destruct (json_Unmarshal out) as [r [err|]]; reflexivity.
Qed.

(** exists runs the list command, and nothing else. *)
Lemma forge_exists_calls (host : Host) (f : forge) (org name : string) :
  calls (trace (forge_exists host f org name)) = [EvExec (list_argv org)].
Proof.
  step_through.
  destruct (Output host (list_argv org)) as [out [err|]]; simpl; [reflexivity|].
  destruct (json_Unmarshal out) as [r [err|]]; reflexivity.
Qed.

Lemma forge_exists_error_false (host : Host) (f : forge) (org name : string) (err : error) :
  snd (result (forge_exists host f org name)) = Some err ->
  fst (result (forge_exists host f org name)) = false.
Proof.
  rewrite forge_exists_result.
  destruct (Output host (list_argv org)) as [out [e|]]; simpl; [reflexivity|].
  destruct (json_Unmarshal out) as [r [e|]]; simpl; [reflexivity|].
  rewrite find_name_no_error. discriminate.
Qed.

(* --------------------------------------------------------------------- *)
(* Observe                                                                *)
(* --------------------------------------------------------------------- *)

(** Observe on a test case: the observation is built from the boolean of
    exists alone. *)
Lemma Observe_TestCase (host : Host) (c : external) (cr : v1alpha1.TestCase) :
  result (Observe host c (MgTestCase cr)) =
    ({| managed.ResourceExists :=
          fst (result (forge_exists host (client c)
                         (v1alpha1.Org (v1alpha1.ForProvider (v1alpha1.Spec cr)))
                         (v1alpha1.Name (v1alpha1.ForProvider (v1alpha1.Spec cr)))));
        managed.ResourceUpToDate := true;
        managed.ObservationDetails := Some ∅ |}, None).
Proof.
  unfold Observe, bind, ret, result, Printf, emit.
  destruct (forge_exists host (client c) _ _) as [found t]. reflexivity.
Qed.

(** C10. For every TestCase, Observe returns a nil error: the error of the
    exists query is dropped.  The observation it returns has ResourceExists
    equal to the boolean exists returned (false whenever the query
    failed), ResourceUpToDate true and an empty ConnectionDetails. *)
Theorem Observe_never_fails (host : Host) (c : external) (cr : v1alpha1.TestCase) :
  let p := v1alpha1.ForProvider (v1alpha1.Spec cr) in
  let query := result (forge_exists host (client c) (v1alpha1.Org p) (v1alpha1.Name p)) in
  result (Observe host c (MgTestCase cr)) =
    ({| managed.ResourceExists := fst query;
        managed.ResourceUpToDate := true;
        managed.ObservationDetails := Some ∅ |}, None)
  /\ managed.details_len (managed.ObservationDetails (fst (result (Observe host c (MgTestCase cr))))) = 0
  /\ (forall err, snd query = Some err ->
        managed.ResourceExists (fst (result (Observe host c (MgTestCase cr)))) = false).
Proof.
  intros p query. subst query p.
  rewrite Observe_TestCase. simpl. repeat split.
  intros err Herr. eapply forge_exists_error_false. exact Herr.
Qed.

Lemma Observe_never_fails_witness :
  result (Observe host_down anyExternal (MgTestCase load1)) =
    ({| managed.ResourceExists := false;
        managed.ResourceUpToDate := true;
        managed.ObservationDetails := Some ∅ |}, None)
  /\ managed.ResourceExists (fst (result (Observe host_down anyExternal (MgTestCase load1)))) = false.
Proof.
  split.
  - exact (proj1 (Observe_never_fails host_down anyExternal load1)).
  - apply (proj2 (proj2 (Observe_never_fails host_down anyExternal load1)) exit1).
    reflexivity.
Defined.

(** C1, at Scenario C.  The list command answers with a payload that is
    not JSON: exists returns the syntax error, and Observe returns a nil
    error with ResourceExists false, the very observation of a resource
    known to be absent. *)
Theorem Observe_drops_query_error :
  result (forge_exists host_malformed anyForge "acme" "load-1") = (false, Some SyntaxError)
  /\ result (Observe host_malformed anyExternal (MgTestCase load1)) =
       ({| managed.ResourceExists := false;
           managed.ResourceUpToDate := true;
           managed.ObservationDetails := Some ∅ |}, None)
  /\ result (Observe host_malformed anyExternal (MgTestCase load1)) =
     result (Observe host_empty anyExternal (MgTestCase load1)).
Proof.
  repeat split; vm_compute; reflexivity.
Qed.

(** C6. Whenever the observation Observe returns has ResourceExists true,
    it has ResourceUpToDate true, and Observe returned no error: nothing
    is compared, a resource that exists counts as current. *)
Theorem Observe_present_is_current (host : Host) (c : external) (mg : Managed) :
  managed.ResourceExists (fst (result (Observe host c mg))) = true ->
  managed.ResourceUpToDate (fst (result (Observe host c mg))) = true
  /\ snd (result (Observe host c mg)) = None.
Proof.
  destruct mg as [cr | kind].
  - intros _. rewrite Observe_TestCase. split; reflexivity.
  - simpl. discriminate.
Qed.

Lemma Observe_present_is_current_witness :
  managed.ResourceExists (fst (result (Observe host_present anyExternal (MgTestCase load1)))) = true
  /\ managed.ResourceUpToDate (fst (result (Observe host_present anyExternal (MgTestCase load1)))) = true
  /\ snd (result (Observe host_present anyExternal (MgTestCase load1))) = None.
Proof.
  split.
  - vm_compute. reflexivity.
  - apply (Observe_present_is_current host_present anyExternal (MgTestCase load1)).
    vm_compute. reflexivity.
Defined.

(* --------------------------------------------------------------------- *)
(* exists                                                                 *)
(* --------------------------------------------------------------------- *)

(** C2, as the claim states it, fails at Scenario A: the list is empty and
    well formed, and exists returns false with a nil error. *)
Lemma exists_empty_list_is_silent_false :
  Output host_empty (list_argv "acme") = (dq "{'data':[]}", None)
  /\ json_Unmarshal (dq "{'data':[]}") = ({| ForgeApiResponseData := [] |}, None)
  /\ result (forge_exists host_empty anyForge "acme" "load-1") = (false, None).
Proof.
  repeat split; vm_compute; reflexivity.
Qed.

(** C2, amended.  A list command that fails and a response that does not
    decode both make exists return false together with that error; and
    whenever exists returns false with a nil error, the command succeeded,
    its output decoded without error, and no record of the decoded list
    (which may be empty) bears the name. *)
Theorem exists_false_nil_is_confirmed_absence (host : Host) (f : forge) (org name : string) :
  (forall out err, Output host (list_argv org) = (out, Some err) ->
     result (forge_exists host f org name) = (false, Some err))
  /\ (forall out r err, Output host (list_argv org) = (out, None) ->
        json_Unmarshal out = (r, Some err) ->
        result (forge_exists host f org name) = (false, Some err))
  /\ (result (forge_exists host f org name) = (false, None) ->
      exists out r,
        Output host (list_argv org) = (out, None)
        /\ json_Unmarshal out = (r, None)
        /\ forall element, In element (ForgeApiResponseData r) ->
                           Name (Attributes element) <> name).
Proof.
  rewrite forge_exists_result. repeat split.
  - intros out err ->. reflexivity.
  - intros out r err -> ->. reflexivity.
  - destruct (Output host (list_argv org)) as [out [e|]]; [discriminate|].
    destruct (json_Unmarshal out) as [r [e|]] eqn:Hu; [discriminate|].
    intros Hfind. exists out, r.
    split; [reflexivity|]. split; [exact Hu|].
    apply find_name_false. rewrite Hfind. reflexivity.
Qed.

Lemma exists_false_nil_is_confirmed_absence_witness :
  result (forge_exists host_down anyForge "acme" "load-1") = (false, Some exit1)
  /\ result (forge_exists host_malformed anyForge "acme" "load-1") = (false, Some SyntaxError)
  /\ exists out r,
       Output host_empty (list_argv "acme") = (out, None)
       /\ json_Unmarshal out = (r, None)
       /\ forall element, In element (ForgeApiResponseData r) ->
                          Name (Attributes element) <> "load-1".
Proof.
  split; [|split].
  - apply (proj1 (exists_false_nil_is_confirmed_absence host_down anyForge "acme" "load-1")
             "" exit1).
    reflexivity.
  - apply (proj1 (proj2 (exists_false_nil_is_confirmed_absence
                           host_malformed anyForge "acme" "load-1"))
             "<html>bad gateway</html>" zeroResponse SyntaxError).
    + reflexivity.
    + vm_compute. reflexivity.
  - apply (proj2 (proj2 (exists_false_nil_is_confirmed_absence
                           host_empty anyForge "acme" "load-1"))).
    vm_compute. reflexivity.
Defined.

(** C3. When the list command succeeds and its output decodes without
    error, exists returns true exactly when some record of the decoded
    list has attributes.name equal to the name, and returns no error; two
    lists with the same names, whatever their ids and scopes, give the
    same answer. *)
Theorem exists_iff_name_listed (host : Host) (f : forge) (org name out : string)
    (r : forgeApiResponse) :
  Output host (list_argv org) = (out, None) ->
  json_Unmarshal out = (r, None) ->
  (fst (result (forge_exists host f org name)) = true <->
   exists element, In element (ForgeApiResponseData r) /\ Name (Attributes element) = name)
  /\ snd (result (forge_exists host f org name)) = None
  /\ (forall (host' : Host) (f' : forge) (org' out' : string) (r' : forgeApiResponse),
        Output host' (list_argv org') = (out', None) ->
        json_Unmarshal out' = (r', None) ->
        List.map (fun e => Name (Attributes e)) (ForgeApiResponseData r') =
        List.map (fun e => Name (Attributes e)) (ForgeApiResponseData r) ->
        result (forge_exists host' f' org' name) = result (forge_exists host f org name)).
Proof.
  intros Hout Hdec. rewrite !forge_exists_result, Hout, Hdec.
  split; [apply find_name_true|].
  split; [apply find_name_no_error|].
  intros host' f' org' out' r' Hout' Hdec' Hnames.
  rewrite forge_exists_result, Hout', Hdec'. apply find_name_names. exact Hnames.
Qed.

Lemma exists_iff_name_listed_witness :
  fst (result (forge_exists host_present anyForge "acme" "load-1")) = true <->
  exists element,
    In element [ {| Id := "1";
                    Attributes := {| Name := "load-1"; Scope := "acme"; Org := "" |} |} ]
    /\ Name (Attributes element) = "load-1".
Proof.
  apply (exists_iff_name_listed host_present anyForge "acme" "load-1"
           (dq "{'data':[{'id':'1','attributes':{'name':'load-1','scope':'acme'}}]}")
           {| ForgeApiResponseData :=
                [ {| Id := "1";
                     Attributes := {| Name := "load-1"; Scope := "acme"; Org := "" |} |} ] |}).
  - reflexivity.
  - vm_compute. reflexivity.
Defined.

(* --------------------------------------------------------------------- *)
(* Connect                                                                *)
(* --------------------------------------------------------------------- *)

Section Connecting.

Variables (host : Host) (c : connector) (cr : v1alpha1.TestCase).

Let pcName : string :=
  v1alpha1.RefName (v1alpha1.ProviderConfigReference (v1alpha1.Spec cr)).

(** Connect on a test case, by the answers of its collaborators: the
    result and the calls made, in order. *)
Lemma Connect_cases :
  (result (Connect host c (MgTestCase cr)), calls (trace (Connect host c (MgTestCase cr)))) =
  match Track (usage c) (MgTestCase cr) with
  | Some err => ((None, Some (Wrap err errTrackPCUsage)), [EvTrack (MgTestCase cr)])
  | None =>
      match Get (kube c) pcName with
      | (_, Some err) =>
          ((None, Some (Wrap err errGetPC)), [EvTrack (MgTestCase cr); EvKubeGet pcName])
      | (pc, None) =>
          let cd := Credentials pc in
          match CommonCredentialExtractor host (Source cd) (kube c) (Selectors cd) with
          | (_, Some err) =>
              ((None, Some (Wrap err errGetCreds)),
               [EvTrack (MgTestCase cr); EvKubeGet pcName;
                EvExtractCreds (Source cd) (Selectors cd)])
          | (data, None) =>
              ((Some {| client := {| jwtToken := data |} |}, None),
               [EvTrack (MgTestCase cr); EvKubeGet pcName;
                EvExtractCreds (Source cd) (Selectors cd); EvExec ping_argv])
          end
      end
  end.
Proof.
  subst pcName. step_through.
  destruct (Track (usage c) (MgTestCase cr)) as [terr|]; simpl; [reflexivity|].
  destruct (Get (kube c) _) as [pc [gerr|]]; simpl; [reflexivity|].
  destruct (CommonCredentialExtractor host _ (kube c) _) as [data [cerr|]]; simpl;
    [reflexivity|].
  destruct (Output host ping_argv) as [out [perr|]]; reflexivity.
Qed.

End Connecting.

(** C4. When tracking, the configuration fetch and the credential
    extraction succeed, Connect returns the client built from the
    credentials and a nil error, whatever the ping command answers; the
    ping is the one command run. *)
Theorem Connect_survives_ping (host : Host) (c : connector) (cr : v1alpha1.TestCase)
    (pc : ProviderConfig) (data : string) (pong : string * option error) :
  Track (usage c) (MgTestCase cr) = None ->
  Get (kube c) (v1alpha1.RefName (v1alpha1.ProviderConfigReference (v1alpha1.Spec cr)))
    = (pc, None) ->
  CommonCredentialExtractor host (Source (Credentials pc)) (kube c) (Selectors (Credentials pc))
    = (data, None) ->
  Output host ping_argv = pong ->
  result (Connect host c (MgTestCase cr)) = (Some {| client := {| jwtToken := data |} |}, None)
  /\ exec_calls (trace (Connect host c (MgTestCase cr))) = [ping_argv].
Proof.
  intros Ht Hg Hc _.
  pose proof (Connect_cases host c cr) as H. rewrite Ht, Hg in H. simpl in H.
  rewrite Hc in H. injection H as Hres Hcalls. split; [exact Hres|].
  clear Hres Hcalls. step_through. rewrite Ht. simpl. rewrite Hg. simpl. rewrite Hc. simpl.
  destruct (Output host ping_argv) as [out [perr|]]; reflexivity.
Qed.

Lemma Connect_survives_ping_witness :
  Output host_present ping_argv = ("", Some exit1)
  /\ result (Connect host_present {| kube := kube_ok; usage := usage_ok |} (MgTestCase load1))
     = (Some {| client := {| jwtToken := "token" |} |}, None)
  /\ exec_calls (trace (Connect host_present {| kube := kube_ok; usage := usage_ok |}
                          (MgTestCase load1))) = [ping_argv].
Proof.
  split; [reflexivity|].
  apply (Connect_survives_ping host_present {| kube := kube_ok; usage := usage_ok |} load1
           pc_default "token" ("", Some exit1)); reflexivity.
Defined.

(** C5. Connect tracks usage, fetches the configuration, extracts the
    credentials and builds the client, in that order, and stops at the
    first failure: a tracking error is returned (wrapped) after the
    tracking call alone; an error of the configuration fetch is returned
    after tracking and the fetch, with no client and no command run; an
    extraction error is returned after those two and the extraction, with
    no client and no command run.  When all three succeed the client is
    built last, after them. *)
Theorem Connect_fails_fast (host : Host) (c : connector) (cr : v1alpha1.TestCase) :
  let mg := MgTestCase cr in
  let name := v1alpha1.RefName (v1alpha1.ProviderConfigReference (v1alpha1.Spec cr)) in
  let run := Connect host c mg in
  (forall err, Track (usage c) mg = Some err ->
     result run = (None, Some (Wrap err errTrackPCUsage))
     /\ calls (trace run) = [EvTrack mg])
  /\ (forall pc err, Track (usage c) mg = None -> Get (kube c) name = (pc, Some err) ->
        result run = (None, Some (Wrap err errGetPC))
        /\ calls (trace run) = [EvTrack mg; EvKubeGet name])
  /\ (forall pc data err, Track (usage c) mg = None -> Get (kube c) name = (pc, None) ->
        CommonCredentialExtractor host (Source (Credentials pc)) (kube c)
          (Selectors (Credentials pc)) = (data, Some err) ->
        result run = (None, Some (Wrap err errGetCreds))
        /\ calls (trace run) =
             [EvTrack mg; EvKubeGet name;
              EvExtractCreds (Source (Credentials pc)) (Selectors (Credentials pc))])
  /\ (forall pc data, Track (usage c) mg = None -> Get (kube c) name = (pc, None) ->
        CommonCredentialExtractor host (Source (Credentials pc)) (kube c)
          (Selectors (Credentials pc)) = (data, None) ->
        result run = (Some {| client := {| jwtToken := data |} |}, None)
        /\ calls (trace run) =
             [EvTrack mg; EvKubeGet name;
              EvExtractCreds (Source (Credentials pc)) (Selectors (Credentials pc));
              EvExec ping_argv]).
Proof.
  intros mg name run. subst mg name run.
  pose proof (Connect_cases host c cr) as H.
  split; [|split; [|split]].
  - intros err Ht. rewrite Ht in H. injection H as -> ->. split; reflexivity.
  - intros pc err Ht Hg. rewrite Ht, Hg in H. injection H as -> ->. split; reflexivity.
  - intros pc data err Ht Hg Hc. rewrite Ht, Hg in H. simpl in H. rewrite Hc in H.
    injection H as -> ->. split; reflexivity.
  - intros pc data Ht Hg Hc. rewrite Ht, Hg in H. simpl in H. rewrite Hc in H.
    injection H as -> ->. split; reflexivity.
Qed.

Lemma Connect_fails_fast_witness :
  (result (Connect host_empty {| kube := kube_ok; usage := usage_down |} (MgTestCase load1))
   = (None, Some (Wrap (Foreign "cannot apply ProviderConfigUsage") errTrackPCUsage))
   /\ calls (trace (Connect host_empty {| kube := kube_ok; usage := usage_down |}
                      (MgTestCase load1)))
      = [EvTrack (MgTestCase load1)])
  /\ (result (Connect host_empty {| kube := kube_missing; usage := usage_ok |} (MgTestCase load1))
      = (None, Some (Wrap (Foreign "ProviderConfig.stormforge.crossplane.io default not found")
                          errGetPC))
      /\ calls (trace (Connect host_empty {| kube := kube_missing; usage := usage_ok |}
                         (MgTestCase load1)))
         = [EvTrack (MgTestCase load1); EvKubeGet "default"])
  /\ (result (Connect host_down {| kube := kube_ok; usage := usage_ok |} (MgTestCase load1))
      = (None, Some (Wrap (Foreign "no secret") errGetCreds))
      /\ calls (trace (Connect host_down {| kube := kube_ok; usage := usage_ok |}
                         (MgTestCase load1)))
         = [EvTrack (MgTestCase load1); EvKubeGet "default";
            EvExtractCreds "Secret" (Selectors (Credentials pc_default))]).
Proof.
  split; [|split].
  - apply (proj1 (Connect_fails_fast host_empty {| kube := kube_ok; usage := usage_down |} load1)).
    reflexivity.
  - apply (proj1 (proj2 (Connect_fails_fast host_empty
                           {| kube := kube_missing; usage := usage_ok |} load1))
             (fst (Get kube_missing "default"))); reflexivity.
  - apply (proj1 (proj2 (proj2 (Connect_fails_fast host_down
                                  {| kube := kube_ok; usage := usage_ok |} load1)))
             pc_default ""); reflexivity.
Defined.

(* --------------------------------------------------------------------- *)
(* Create and Delete                                                      *)
(* --------------------------------------------------------------------- *)

(** C7. Create on a test case with organization org and name n runs one
    command, the creation command with the identifier org/n and the fixed
    definition path.  When the command succeeds Create returns a creation
    whose ConnectionDetails is empty and a nil error; when it fails Create
    returns the zero creation and the command's error. *)
Theorem Create_runs_one_command (host : Host) (c : external) (cr : v1alpha1.TestCase) :
  let org := v1alpha1.Org (v1alpha1.ForProvider (v1alpha1.Spec cr)) in
  let n := v1alpha1.Name (v1alpha1.ForProvider (v1alpha1.Spec cr)) in
  let argv := ["forge"; "test-case"; "create"; org +:+ "/" +:+ n;
               "examples/sample/loadtest.mjs"] in
  calls (trace (Create host c (MgTestCase cr))) = [EvExec argv]
  /\ exec_calls (trace (Create host c (MgTestCase cr))) = [argv]
  /\ (forall out, Output host argv = (out, None) ->
        result (Create host c (MgTestCase cr)) = ({| managed.CreationDetails := Some ∅ |}, None)
        /\ managed.details_len
             (managed.CreationDetails (fst (result (Create host c (MgTestCase cr))))) = 0)
  /\ (forall out err, Output host argv = (out, Some err) ->
        result (Create host c (MgTestCase cr)) = (managed.zeroCreation, Some err)).
Proof.
  intros org n argv. subst org n argv. step_through. unfold create_argv.
  destruct (Output host _) as [out [err|]]; simpl; repeat split;
    intros; try congruence.
Qed.

Lemma Create_runs_one_command_witness :
  (result (Create host_empty anyExternal (MgTestCase load1))
   = ({| managed.CreationDetails := Some ∅ |}, None)
   /\ managed.details_len
        (managed.CreationDetails (fst (result (Create host_empty anyExternal (MgTestCase load1)))))
      = 0)
  /\ result (Create host_down anyExternal (MgTestCase load1)) = (managed.zeroCreation, Some exit1)
  /\ exec_calls (trace (Create host_empty anyExternal (MgTestCase load1)))
     = [["forge"; "test-case"; "create"; "acme/load-1"; "examples/sample/loadtest.mjs"]].
Proof.
  split; [|split].
  - apply (proj1 (proj2 (proj2 (Create_runs_one_command host_empty anyExternal load1)))
             "created").
    reflexivity.
  - apply (proj2 (proj2 (proj2 (Create_runs_one_command host_down anyExternal load1))) "").
    reflexivity.
  - exact (proj1 (proj2 (Create_runs_one_command host_empty anyExternal load1))).
Defined.

(** C8. Delete on a test case calls nothing outside the process, no
    command in particular, and returns a nil error. *)
Theorem Delete_is_noop (c : external) (cr : v1alpha1.TestCase) :
  result (Delete c (MgTestCase cr)) = None
  /\ calls (trace (Delete c (MgTestCase cr))) = []
  /\ exec_calls (trace (Delete c (MgTestCase cr))) = [].
Proof.
  repeat split.
Qed.

(** C9. On a managed resource that is not a TestCase, Connect, Observe,
    Create and Delete each return the error
    "managed resource is not a TestCase custom resource" with a nil (zero)
    value, and call neither a command nor the tracker, the kube client or
    the credential extractor. *)
Theorem not_a_TestCase (host : Host) (cn : connector) (c : external) (kind : string) :
  let mg := MgOther kind in
  let notMine := New "managed resource is not a TestCase custom resource" in
  (result (Connect host cn mg) = (None, Some notMine) /\ calls (trace (Connect host cn mg)) = [])
  /\ (result (Observe host c mg) = (managed.zeroObservation, Some notMine)
      /\ calls (trace (Observe host c mg)) = [])
  /\ (result (Create host c mg) = (managed.zeroCreation, Some notMine)
      /\ calls (trace (Create host c mg)) = [])
  /\ (result (Delete c mg) = Some notMine /\ calls (trace (Delete c mg)) = []).
Proof.
  repeat split.
Qed.

(* ===================================================================== *)
(* Further properties of the controller                                   *)
(* ===================================================================== *)

Lemma exec_calls_app (t1 t2 : list Event) :
  exec_calls (t1 ++ t2) = exec_calls t1 ++ exec_calls t2.
Proof.
  induction t1 as [|e t1 IH]; simpl; [reflexivity|].
  destruct e; simpl; rewrite IH; reflexivity.
Qed.

Lemma exec_calls_of_calls (t : list Event) : exec_calls (calls t) = exec_calls t.
Proof.
  induction t as [|e t IH]; simpl; [reflexivity|].
  destruct e; simpl; rewrite ?IH; reflexivity.
Qed.

Lemma calls_app (t1 t2 : list Event) : calls (t1 ++ t2) = calls t1 ++ calls t2.
Proof.
  unfold calls. apply List.filter_app.
Qed.

(** X1. Update on a test case calls nothing outside the process and
    returns an update with empty ConnectionDetails and a nil error; Update
    and Delete return an error exactly when the managed resource is not a
    test case. *)
Theorem Update_is_noop (c : external) (mg : Managed) :
  calls (trace (Update c mg)) = []
  /\ (forall cr, mg = MgTestCase cr ->
        result (Update c mg) = ({| managed.UpdateDetails := Some ∅ |}, None))
  /\ (snd (result (Update c mg)) <> None <-> exists kind, mg = MgOther kind)
  /\ (result (Delete c mg) <> None <-> exists kind, mg = MgOther kind).
Proof.
  destruct mg as [cr | kind]; simpl.
  - repeat split; try reflexivity; try congruence.
    + intros [kind H]. discriminate.
    + intros [kind H]. discriminate.
  - repeat split; try reflexivity; try discriminate; intros; exists kind; reflexivity.
Qed.

Lemma Update_is_noop_witness :
  result (Update anyExternal (MgTestCase load1)) = ({| managed.UpdateDetails := Some ∅ |}, None).
Proof.
  apply (proj1 (proj2 (Update_is_noop anyExternal (MgTestCase load1))) load1).
  reflexivity.
Defined.

(** X2. ping runs the one command forge ping and returns that command's
    error as it is, nil when the command succeeded. *)
Theorem ping_returns_command_error (host : Host) (f : forge) :
  result (forge_ping host f) = snd (Output host ["forge"; "ping"])
  /\ calls (trace (forge_ping host f)) = [EvExec ["forge"; "ping"]].
Proof.
  step_through. unfold ping_argv.
  destruct (Output host ["forge"; "ping"]) as [out [err|]]; split; reflexivity.
Qed.

(** X3. Connect returns either a client and a nil error, or no client and
    an error, never both and never neither.  It runs a command, the ping
    and only the ping, exactly when it returns a client. *)
Theorem Connect_client_xor_error (host : Host) (c : connector) (mg : Managed) :
  (exists ext, result (Connect host c mg) = (Some ext, None)
               /\ exec_calls (trace (Connect host c mg)) = [["forge"; "ping"]])
  \/ (exists err, result (Connect host c mg) = (None, Some err)
                  /\ exec_calls (trace (Connect host c mg)) = []).
Proof.
  destruct mg as [cr | kind].
  - pose proof (Connect_cases host c cr) as H.
    rewrite <- exec_calls_of_calls.
    destruct (Track (usage c) (MgTestCase cr)) as [terr|].
    { injection H as -> ->. right. eexists. split; reflexivity. }
    destruct (Get (kube c) _) as [pc [gerr|]].
    { injection H as -> ->. right. eexists. split; reflexivity. }
    simpl in H.
    destruct (CommonCredentialExtractor host _ (kube c) _) as [data [cerr|]].
    { injection H as -> ->. right. eexists. split; reflexivity. }
    injection H as -> ->. left. eexists. split; reflexivity.
  - right. eexists. split; reflexivity.
Qed.

(** X4. The error Connect returns is the not-a-TestCase error or the
    error of the tracker, of the configuration fetch or of the credential
    extraction under its own message; NewForge never fails, so the
    message "cannot create new Service" is never returned. *)
Theorem Connect_error_kinds (host : Host) (c : connector) (mg : Managed) (err : error) :
  snd (result (Connect host c mg)) = Some err ->
  err = New errNotMyType
  \/ exists cause,
       (err = Wrap cause errTrackPCUsage /\ Track (usage c) mg = Some cause)
       \/ (err = Wrap cause errGetPC
           /\ exists cr, mg = MgTestCase cr
              /\ snd (Get (kube c)
                        (v1alpha1.RefName
                           (v1alpha1.ProviderConfigReference (v1alpha1.Spec cr))))
                 = Some cause)
       \/ (err = Wrap cause "cannot get credentials"
           /\ exists source sel, snd (CommonCredentialExtractor host source (kube c) sel)
                                 = Some cause).
Proof.
  destruct mg as [cr | kind].
  - pose proof (Connect_cases host c cr) as H.
    destruct (Track (usage c) (MgTestCase cr)) as [terr|] eqn:Ht.
    { injection H as -> _. simpl. intros [= <-]. right. exists terr. left.
      split; reflexivity. }
    destruct (Get (kube c) _) as [pc [gerr|]] eqn:Hg.
    { injection H as -> _. simpl. intros [= <-]. right. exists gerr. right. left.
      split; [reflexivity|]. exists cr. split; [reflexivity|]. rewrite Hg. reflexivity. }
    simpl in H.
    destruct (CommonCredentialExtractor host _ (kube c) _) as [data [cerr|]] eqn:Hc.
    { injection H as -> _. simpl. intros [= <-]. right. exists cerr. right. right.
      split; [reflexivity|]. eexists. eexists. rewrite Hc. reflexivity. }
    injection H as -> _. simpl. discriminate.
  - simpl. intros [= <-]. left. reflexivity.
Qed.

Lemma Connect_error_kinds_witness :
  Wrap (Foreign "no secret") errGetCreds = New errNotMyType
  \/ exists cause,
       (Wrap (Foreign "no secret") errGetCreds = Wrap cause errTrackPCUsage
        /\ Track usage_ok (MgTestCase load1) = Some cause)
       \/ (Wrap (Foreign "no secret") errGetCreds = Wrap cause errGetPC
           /\ exists cr, MgTestCase load1 = MgTestCase cr
              /\ snd (Get kube_ok
                        (v1alpha1.RefName
                           (v1alpha1.ProviderConfigReference (v1alpha1.Spec cr))))
                 = Some cause)
       \/ (Wrap (Foreign "no secret") errGetCreds = Wrap cause "cannot get credentials"
           /\ exists source sel, snd (CommonCredentialExtractor host_down source kube_ok sel)
                                 = Some cause).
Proof.
  apply (Connect_error_kinds host_down {| kube := kube_ok; usage := usage_ok |}
           (MgTestCase load1)).
  reflexivity.
Defined.

(** X5. Once the credentials are extracted, Connect prints them to
    standard output, before the client is built and pinged. *)
Theorem Connect_prints_credentials (host : Host) (c : connector) (cr : v1alpha1.TestCase)
    (pc : ProviderConfig) (data : string) :
  Track (usage c) (MgTestCase cr) = None ->
  Get (kube c) (v1alpha1.RefName (v1alpha1.ProviderConfigReference (v1alpha1.Spec cr)))
    = (pc, None) ->
  CommonCredentialExtractor host (Source (Credentials pc)) (kube c) (Selectors (Credentials pc))
    = (data, None) ->
  exists before after,
    trace (Connect host c (MgTestCase cr)) =
      before ++ EvPrintf "MDL pc.Spec.Credentials.data: %+v\n" [PText data]
             :: EvExec ["forge"; "ping"] :: after
    /\ exec_calls before = [].
Proof.
  intros Ht Hg Hc. step_through. rewrite Ht. simpl. rewrite Hg. simpl. rewrite Hc. simpl.
  unfold ping_argv.
  destruct (Output host ["forge"; "ping"]) as [out [perr|]]; simpl.
  - exists [EvPrintf "MDL Connect\n" []; EvTrack (MgTestCase cr);
            EvKubeGet (v1alpha1.RefName (v1alpha1.ProviderConfigReference (v1alpha1.Spec cr)));
            EvExtractCreds (Source (Credentials pc)) (Selectors (Credentials pc))].
    eexists. split; reflexivity.
  - exists [EvPrintf "MDL Connect\n" []; EvTrack (MgTestCase cr);
            EvKubeGet (v1alpha1.RefName (v1alpha1.ProviderConfigReference (v1alpha1.Spec cr)));
            EvExtractCreds (Source (Credentials pc)) (Selectors (Credentials pc))].
    eexists. split; reflexivity.
Qed.

Lemma Connect_prints_credentials_witness :
  exists before after,
    trace (Connect host_empty {| kube := kube_ok; usage := usage_ok |} (MgTestCase load1)) =
      before ++ EvPrintf "MDL pc.Spec.Credentials.data: %+v\n" [PText "token"]
             :: EvExec ["forge"; "ping"] :: after
    /\ exec_calls before = [].
Proof.
  apply (Connect_prints_credentials host_empty {| kube := kube_ok; usage := usage_ok |}
           load1 pc_default "token"); reflexivity.
Defined.

(** X6. Observe on a test case runs one command whatever the answer, the
    listing of the test case's organization, and calls nothing else
    outside the process: it never creates and never reads the
    configuration store. *)
Theorem Observe_runs_one_listing (host : Host) (c : external) (cr : v1alpha1.TestCase) :
  calls (trace (Observe host c (MgTestCase cr))) =
    [EvExec ["forge"; "--output"; "json"; "test-case"; "list";
             v1alpha1.Org (v1alpha1.ForProvider (v1alpha1.Spec cr))]].
Proof.
  unfold Observe, bind, ret, trace, Printf, emit.
  pose proof (forge_exists_calls host (client c)
                (v1alpha1.Org (v1alpha1.ForProvider (v1alpha1.Spec cr)))
                (v1alpha1.Name (v1alpha1.ForProvider (v1alpha1.Spec cr)))) as H.
  unfold trace in H.
  destruct (forge_exists host (client c) _ _) as [found t]. simpl in *.
  rewrite calls_app, H. reflexivity.
Qed.

(** X7. An observation with ResourceExists true is always backed by the
    listing: the managed resource is a test case, the list command
    succeeded, its output decoded without error and a decoded record
    bears the test case's name.  (The converse fails: ResourceExists false
    is also what a failed query gives.) *)
Theorem Observe_exists_is_confirmed (host : Host) (c : external) (mg : Managed) :
  managed.ResourceExists (fst (result (Observe host c mg))) = true ->
  exists cr out r element,
    mg = MgTestCase cr
    /\ Output host (list_argv (v1alpha1.Org (v1alpha1.ForProvider (v1alpha1.Spec cr))))
       = (out, None)
    /\ json_Unmarshal out = (r, None)
    /\ In element (ForgeApiResponseData r)
    /\ Name (Attributes element) = v1alpha1.Name (v1alpha1.ForProvider (v1alpha1.Spec cr)).
Proof.
  destruct mg as [cr | kind]; [|simpl; discriminate].
  rewrite Observe_TestCase. simpl. rewrite forge_exists_result.
  destruct (Output host _) as [out [e|]] eqn:Ho; [simpl; discriminate|].
  destruct (json_Unmarshal out) as [r [e|]] eqn:Hu; [simpl; discriminate|].
  intros Hfound. apply find_name_true in Hfound. destruct Hfound as [element [Hin Hname]].
  exists cr, out, r, element. repeat split; assumption.
Qed.

Lemma Observe_exists_is_confirmed_witness :
  exists cr out r element,
    MgTestCase load1 = MgTestCase cr
    /\ Output host_present
         (list_argv (v1alpha1.Org (v1alpha1.ForProvider (v1alpha1.Spec cr)))) = (out, None)
    /\ json_Unmarshal out = (r, None)
    /\ In element (ForgeApiResponseData r)
    /\ Name (Attributes element) = v1alpha1.Name (v1alpha1.ForProvider (v1alpha1.Spec cr)).
Proof.
  apply (Observe_exists_is_confirmed host_present anyExternal (MgTestCase load1)).
  vm_compute. reflexivity.
Defined.

(** X8. The token the client was built with is used by none of its
    operations: two clients that differ in it observe and create alike,
    result and trace. *)
Theorem client_ignores_token (host : Host) (token token' : string) (mg : Managed) :
  let c := {| client := {| jwtToken := token |} |} in
  let c' := {| client := {| jwtToken := token' |} |} in
  Observe host c mg = Observe host c' mg
  /\ Create host c mg = Create host c' mg
  /\ forge_ping host (client c) = forge_ping host (client c').
Proof.
  destruct mg; repeat split.
Qed.

(* --------------------------------------------------------------------- *)
(* The identifier Create passes to the command                            *)
(* --------------------------------------------------------------------- *)

Lemma identifier_injective (org org' name name' : string) :
  no_slash org = true -> no_slash org' = true ->
  org +:+ "/" +:+ name = org' +:+ "/" +:+ name' ->
  org = org' /\ name = name'.
Proof.
  revert org'. induction org as [|a org IH]; intros [|b org'] Ha Hb H;
    cbv [String.append] in H; fold String.append in H.
  - injection H as H. subst name'. split; reflexivity.
  - injection H as Hc _. subst b. simpl in Hb. discriminate.
  - injection H as Hc _. subst a. simpl in Ha. discriminate.
  - injection H as Hc H. subst b.
    apply andb_prop in Ha. destruct Ha as [_ Ha].
    apply andb_prop in Hb. destruct Hb as [_ Hb].
    destruct (IH org' Ha Hb H) as [-> ->]. split; reflexivity.
Qed.

(** X9. For organizations that hold no slash, the command line of create
    determines the organization and the name: two test cases with the same
    creation command are the same pair.  With a slash in the organization
    this fails: a/b with c and a with b/c give the same command. *)
Theorem create_identifier_unique (org org' name name' : string) :
  (no_slash org = true -> no_slash org' = true ->
   create_argv org name = create_argv org' name' ->
   org = org' /\ name = name')
  /\ create_argv "a/b" "c" = create_argv "a" "b/c".
Proof.
  split; [|reflexivity].
  intros Ha Hb H. unfold create_argv in H. injection H as H.
  apply identifier_injective; assumption.
Qed.

Lemma create_identifier_unique_witness :
  "acme" = "acme" /\ "load-1" = "load-1".
Proof.
  apply (proj1 (create_identifier_unique "acme" "acme" "load-1" "load-1")); reflexivity.
Defined.

(* --------------------------------------------------------------------- *)
(* Listings that decode to nothing, and listings of the wrong shape       *)
(* --------------------------------------------------------------------- *)

Lemma fold_members_error_sticks {T : Type} (set : string -> json.value -> T -> T * option error)
    (members : list (string * json.value)) (cur : T) (err : error) :
  exists x,
    fold_left
      (fun (st : T * option error) (m : string * json.value) =>
         let '(x, e) := set (fst m) (snd m) (fst st) in (x, json.saveError (snd st) e))
      members (cur, Some err) = (x, Some err).
Proof.
  revert cur. induction members as [|m members IH]; intros cur; simpl.
  - exists cur. reflexivity.
  - destruct (set (fst m) (snd m) cur) as [x e]. simpl. apply IH.
Qed.

Lemma fold_members_unknown (members : list (string * json.value))
    (cur : json.slice forgeApiResponseData) :
  Forall (fun m => json.field_of ["data"] (fst m) = None) members ->
  json.storeStruct set_Response (json.JObject members) cur = (cur, None).
Proof.
  unfold json.storeStruct. intros H. induction H as [|m members Hm _ IH]; simpl.
  - reflexivity.
  - unfold set_Response at 2. rewrite Hm. simpl. exact IH.
Qed.

(** X10. A listing that is the JSON null, or an object none of whose keys
    names the data field, decodes to no records and no error: exists
    answers false with a nil error, as for an empty list. *)
Theorem exists_listing_without_data (host : Host) (f : forge) (org name out : string) :
  Output host (list_argv org) = (out, None) ->
  json.parse out = Some json.JNull
  \/ (exists members,
        json.parse out = Some (json.JObject members)
        /\ Forall (fun m => json.field_of ["data"] (fst m) = None) members) ->
  json_Unmarshal out = ({| ForgeApiResponseData := [] |}, None)
  /\ result (forge_exists host f org name) = (false, None).
Proof.
  intros Hout Hshape.
  assert (json_Unmarshal out = ({| ForgeApiResponseData := [] |}, None)) as Hu.
  { unfold json_Unmarshal. destruct Hshape as [-> | [members [-> Hkeys]]].
    - reflexivity.
    - rewrite (fold_members_unknown members json.nil_slice Hkeys). reflexivity. }
  split; [exact Hu|]. rewrite forge_exists_result, Hout, Hu. reflexivity.
Qed.

Lemma exists_listing_without_data_witness :
  json_Unmarshal (dq "{'items':[{'name':'load-1'}],'total':1}")
    = ({| ForgeApiResponseData := [] |}, None)
  /\ result (forge_exists
               (host_of ("", None) (dq "{'items':[{'name':'load-1'}],'total':1}", None)
                        ("", None) ("", None))
               anyForge "acme" "load-1") = (false, None).
Proof.
  apply (exists_listing_without_data
           (host_of ("", None) (dq "{'items':[{'name':'load-1'}],'total':1}", None)
                    ("", None) ("", None))
           anyForge "acme" "load-1" (dq "{'items':[{'name':'load-1'}],'total':1}")).
  - reflexivity.
  - right. eexists. split; [vm_compute; reflexivity|].
    repeat constructor.
Defined.

(** X11. A listing of the wrong shape is an error, not an absence: when
    the output is a JSON text that is neither an object nor null, or an
    object with a data member that is neither an array nor null, exists
    answers false together with an error. *)
Theorem exists_listing_wrong_shape (host : Host) (f : forge) (org name out : string)
    (j : json.value) :
  Output host (list_argv org) = (out, None) ->
  json.parse out = Some j ->
  (j <> json.JNull /\ forall members, j <> json.JObject members)
  \/ (exists members key data,
        j = json.JObject members /\ In (key, data) members
        /\ json.field_of ["data"] key = Some "data"
        /\ data <> json.JNull /\ forall l, data <> json.JArray l) ->
  exists err, result (forge_exists host f org name) = (false, Some err).
Proof.
  intros Hout Hparse Hshape.
  assert (exists r err, json_Unmarshal out = (r, Some err)) as [r [err Hu]].
  { unfold json_Unmarshal. rewrite Hparse.
    destruct Hshape as [[Hnull Hobj] | [members [key [data [-> [Hin [Hkey [Hnull Harr]]]]]]]].
    - destruct j; try (eexists; eexists; reflexivity).
      + contradiction.
      + exfalso. eapply Hobj. reflexivity.
    - apply in_split in Hin. destruct Hin as [pre [post ->]].
      unfold json.storeStruct. rewrite fold_left_app. simpl.
      destruct (fold_left _ pre (json.nil_slice, None)) as [s0 e0]. simpl.
      unfold set_Response at 2. rewrite Hkey.
      assert (exists e1, json.storeSlice zeroData (json.storeStruct set_Data) data s0
                         = (s0, Some e1)) as [e1 ->].
      { destruct data; try (eexists; reflexivity).
        - contradiction.
        - exfalso. eapply Harr. reflexivity. }
      destruct e0 as [e0|]; simpl.
      + destruct (fold_members_error_sticks set_Response post s0 e0) as [x ->].
        eexists. eexists. reflexivity.
      + destruct (fold_members_error_sticks set_Response post s0 e1) as [x ->].
        eexists. eexists. reflexivity. }
  exists err. rewrite forge_exists_result, Hout, Hu. reflexivity.
Qed.

Lemma exists_listing_wrong_shape_witness :
  exists err,
    result (forge_exists
              (host_of ("", None) (dq "{'data':{'id':'1','attributes':{'name':'load-1'}}}", None)
                       ("", None) ("", None))
              anyForge "acme" "load-1") = (false, Some err).
Proof.
  apply (exists_listing_wrong_shape
           (host_of ("", None) (dq "{'data':{'id':'1','attributes':{'name':'load-1'}}}", None)
                    ("", None) ("", None))
           anyForge "acme" "load-1"
           (dq "{'data':{'id':'1','attributes':{'name':'load-1'}}}")
           (json.JObject
              [("data", json.JObject
                          [("id", json.JString "1");
                           ("attributes", json.JObject [("name", json.JString "load-1")])])])).
  - reflexivity.
  - vm_compute. reflexivity.
  - right. eexists. eexists. eexists.
    split; [reflexivity|]. split; [left; reflexivity|].
    split; [reflexivity|]. split; [discriminate|]. intros l. discriminate.
Defined.

(* --------------------------------------------------------------------- *)
(* Listings in the shape of the json tags: reading them back              *)
(* --------------------------------------------------------------------- *)

Lemma unquote_plain (bs rest : list ascii) :
  forallb plain bs = true ->
  json.unquote 0 (bs ++ json.quote :: rest) = Some (bs, rest).
Proof.
  induction bs as [|c bs IH]; intros H.
  - reflexivity.
  - simpl in H. apply andb_prop in H. destruct H as [Hc Hbs].
    unfold plain in Hc.
    apply andb_prop in Hc. destruct Hc as [Hc Hb].
    apply andb_prop in Hc. destruct Hc as [Hc Hq].
    apply andb_prop in Hc. destruct Hc as [Hlo Hhi].
    apply negb_true_iff in Hq, Hb.
    change ((c :: bs) ++ json.quote :: rest) with (c :: (bs ++ json.quote :: rest)).
    cbn [json.unquote]. rewrite Hq, Hb.
    assert (N.ltb (json.code c) 32 = false) as -> by (apply N.ltb_ge; apply N.leb_le; exact Hlo).
    assert (N.ltb (json.code c) 128 = true) as ->
        by (apply N.ltb_lt; apply N.ltb_lt in Hhi; lia).
    rewrite (IH Hbs). reflexivity.
Qed.

Lemma listed_plain (d : forgeApiResponseData) :
  listed d = true ->
  forallb plain (json.bytes (Id d)) = true
  /\ forallb plain (json.bytes (Name (Attributes d))) = true
  /\ forallb plain (json.bytes (Scope (Attributes d))) = true
  /\ Org (Attributes d) = "".
Proof.
  unfold listed, plain_string. intros H.
  apply andb_prop in H. destruct H as [H Ho].
  apply andb_prop in H. destruct H as [H Hs].
  apply andb_prop in H. destruct H as [Hi Hn].
  apply String.eqb_eq in Ho. repeat split; assumption.
Qed.

Lemma parse_record (d : forgeApiResponseData) (rest : list ascii) (f : nat) :
  listed d = true ->
  json.parse_value (7 + f) 2%N (render_record d ++ rest) = Some (ast_record d, rest).
Proof.
  intros H. apply listed_plain in H. destruct H as [Hi [Hn [Hs _]]].
  unfold render_record, render_string, json.bytes in *.
  repeat first [rewrite <- app_assoc | progress simpl].
  rewrite (unquote_plain _ _ Hi).
  repeat first [rewrite <- app_assoc | progress simpl].
  rewrite (unquote_plain _ _ Hn).
  repeat first [rewrite <- app_assoc | progress simpl].
  rewrite (unquote_plain _ _ Hs).
  simpl. unfold json.text. rewrite !string_of_list_ascii_of_string. reflexivity.
Qed.

Lemma render_records_head (d : forgeApiResponseData) (l : list forgeApiResponseData)
    (rest : list ascii) :
  exists tail, render_records (d :: l) ++ rest = "{"%char :: tail.
Proof.
  destruct l as [|d' l]; simpl; eexists; unfold render_record;
    rewrite <- ?app_assoc; simpl; reflexivity.
Qed.

Lemma parse_elements_S (f : nat) (d : N) (s : list ascii) (acc : list json.value) :
  json.parse_elements (S f) d s acc =
  match json.parse_value f d s with
  | None => None
  | Some (v, r) =>
      match json.skip_space r with
      | c :: r' =>
          if N.eqb (json.code c) 44 then json.parse_elements f d r' (v :: acc)
          else if N.eqb (json.code c) 93 then Some (json.JArray (rev (v :: acc)), r')
          else None
      | [] => None
      end
  end.
Proof.
  reflexivity.
Qed.

Lemma parse_records (l : list forgeApiResponseData) :
  forall (d : forgeApiResponseData) (acc : list json.value) (rest : list ascii) (f : nat),
    Forall (fun x => listed x = true) (d :: l) ->
    json.parse_elements (8 + (List.length l + f)) 2%N
      (render_records (d :: l) ++ "]"%char :: rest) acc
    = Some (json.JArray (rev acc ++ List.map ast_record (d :: l)), rest).
Proof.
  induction l as [|d' l IH]; intros d acc rest f H.
  - apply Forall_inv in H.
    change (8 + (List.length (@nil forgeApiResponseData) + f)) with (S (7 + f)).
    rewrite parse_elements_S.
    change (render_records [d]) with (render_record d).
    rewrite (parse_record d _ f H). reflexivity.
  - pose proof (Forall_inv H) as Hd. apply Forall_inv_tail in H.
    change (8 + (List.length (d' :: l) + f)) with (S (7 + S (List.length l + f))).
    rewrite parse_elements_S.
    change (render_records (d :: d' :: l))
      with (render_record d ++ json.bytes "," ++ render_records (d' :: l)).
    rewrite <- !app_assoc.
    rewrite (parse_record d _ _ Hd).
    pose proof (IH d' (ast_record d :: acc) rest f H) as IH'.
    cbn [rev] in IH'. rewrite <- app_assoc in IH'.
    exact IH'.
Qed.

Lemma parse_array (l : list forgeApiResponseData) (rest : list ascii) (f : nat) :
  Forall (fun x => listed x = true) l ->
  json.parse_value (9 + (List.length l + f)) 1%N
    ("["%char :: render_records l ++ "]"%char :: rest)
  = Some (json.JArray (List.map ast_record l), rest).
Proof.
  intros H. destruct l as [|d l].
  - reflexivity.
  - destruct (render_records_head d l ("]"%char :: rest)) as [tail Htail].
    pose proof (parse_records l d [] rest (S f) H) as P.
    replace (9 + (List.length (d :: l) + f)) with (S (8 + (List.length l + S f)))
      by (simpl; lia).
    rewrite Htail in *.
    exact P.
Qed.

Lemma parse_data_object (fuel : nat) (text rest : list ascii) (v : json.value) :
  json.parse_value fuel 1%N text = Some (v, "}"%char :: rest) ->
  json.parse_value (S (S fuel)) 0%N (json.bytes (dq "{'data':") ++ text)
  = Some (json.JObject [("data", v)], rest).
Proof.
  intros H. simpl. change (0 + 1)%N with 1%N. rewrite H. reflexivity.
Qed.

Lemma parse_listing (l : list forgeApiResponseData) (f : nat) :
  Forall (fun x => listed x = true) l ->
  json.parse_value (11 + (List.length l + f)) 0%N (json.bytes (render l))
  = Some (json.JObject [("data", json.JArray (List.map ast_record l))], [json.chr 10]).
Proof.
  intros H. unfold render, json.bytes at 1, json.text.
  rewrite list_ascii_of_string_of_list_ascii.
  apply (parse_data_object (9 + (List.length l + f))
           ("["%char :: render_records l ++ json.bytes "]}" ++ [json.chr 10])).
  apply (parse_array l ("}"%char :: [json.chr 10]) f H).
Qed.

Lemma parse_render (l : list forgeApiResponseData) :
  Forall (fun x => listed x = true) l ->
  json.parse (render l) = Some (json.JObject [("data", json.JArray (List.map ast_record l))]).
Proof.
  intros H. unfold json.parse.
  set (s := json.bytes (render l)).
  set (F := 2 * List.length s + 2).
  assert (json.parse_value F 0%N s = json.parse_value (11 + (List.length l + F)) 0%N s) as ->.
  { symmetry. apply (parse_fuel_mono F (11 + (List.length l + F))); subst F; lia. }
  subst s. rewrite (parse_listing l F H). reflexivity.
Qed.

Lemma decode_record (d : forgeApiResponseData) :
  Org (Attributes d) = "" ->
  json.storeStruct set_Data (ast_record d) zeroData = (d, None).
Proof.
  destruct d as [i [n s o]]. simpl. intros ->. reflexivity.
Qed.

Lemma grow_room {T : Type} (zero : T) (pre : list T) :
  exists k, json.grow zero {| json.array := pre; json.len := List.length pre |}
            = {| json.array := pre ++ zero :: repeat zero k; json.len := List.length pre |}.
Proof.
  unfold json.grow, json.elements. cbn [json.array json.len]. rewrite firstn_all.
  set (cap := List.length pre).
  set (newcap := if Nat.ltb (cap + cap / 2) 4 then 4 else cap + cap / 2).
  assert (cap < newcap) as Hnew.
  { subst newcap. destruct (Nat.ltb (cap + cap / 2) 4) eqn:E.
    - apply Nat.ltb_lt in E. lia.
    - apply Nat.ltb_ge in E.
      assert (cap / 2 <> 0) as Hd.
      { intros Hz. rewrite Hz in E. apply Nat.div_small_iff in Hz; lia. }
      lia. }
  assert (exists k, newcap - cap = S k) as [k ->] by (exists (newcap - cap - 1); lia).
  exists k. reflexivity.
Qed.

Lemma store_elements_fresh {T : Type} (zero : T) (elem : json.value -> T -> T * option error)
    (js : list json.value) (xs : list T) :
  Forall2 (fun j x => elem j zero = (x, None)) js xs ->
  forall (pre : list T) (k : nat),
  exists k',
    fold_left (json.store_element zero elem) js
      ({| json.array := pre ++ repeat zero k; json.len := List.length pre |},
       List.length pre, None)
    = ({| json.array := (pre ++ xs) ++ repeat zero k';
          json.len := List.length (pre ++ xs) |},
       List.length (pre ++ xs), None).
Proof.
  induction 1 as [|j x js xs Hj _ IH]; intros pre k.
  - exists k. rewrite app_nil_r. reflexivity.
  - assert (exists k1,
              json.store_element zero elem
                ({| json.array := pre ++ repeat zero k; json.len := List.length pre |},
                 List.length pre, None) j
              = ({| json.array := (pre ++ [x]) ++ repeat zero k1;
                    json.len := List.length (pre ++ [x]) |},
                 List.length (pre ++ [x]), None)) as [k1 Hstep].
    { unfold json.store_element. cbn [json.array json.len].
      assert (exists k1,
                (if Nat.leb (List.length (pre ++ repeat zero k)) (List.length pre)
                 then json.grow zero {| json.array := pre ++ repeat zero k;
                                        json.len := List.length pre |}
                 else {| json.array := pre ++ repeat zero k; json.len := List.length pre |})
                = {| json.array := pre ++ zero :: repeat zero k1;
                     json.len := List.length pre |}) as [k1 ->].
      { destruct k as [|k]; simpl repeat.
        - rewrite app_nil_r, Nat.leb_refl. apply grow_room.
        - replace (Nat.leb (List.length (pre ++ zero :: repeat zero k)) (List.length pre))
            with false.
          + exists k. reflexivity.
          + symmetry. apply Nat.leb_gt. rewrite List.length_app. simpl. lia. }
      exists k1. cbn [json.array json.len]. rewrite Nat.leb_refl. cbn [json.array json.len].
      rewrite nth_middle, Hj.
      rewrite List.length_app. simpl List.length. rewrite Nat.add_1_r.
      f_equal. f_equal. f_equal.
      rewrite <- app_assoc. simpl.
      clear. induction pre as [|p pre IHp]; simpl; [reflexivity|]. f_equal. exact IHp. }
    cbn [fold_left]. rewrite Hstep.
    destruct (IH (pre ++ [x]) k1) as [k' Hk']. exists k'.
    rewrite Hk'. rewrite <- !app_assoc. reflexivity.
Qed.

Lemma decode_records (l : list forgeApiResponseData) :
  Forall (fun x => listed x = true) l ->
  Forall2 (fun j x => json.storeStruct set_Data j zeroData = (x, None))
          (List.map ast_record l) l.
Proof.
  induction 1 as [|d l Hd _ IH]; simpl; constructor; [|exact IH].
  apply decode_record. apply listed_plain in Hd. tauto.
Qed.

Lemma decode_listing (l : list forgeApiResponseData) :
  Forall (fun x => listed x = true) l ->
  exists s,
    json.storeStruct set_Response
      (json.JObject [("data", json.JArray (List.map ast_record l))]) json.nil_slice
    = (s, None)
    /\ json.elements s = l.
Proof.
  intros H.
  destruct (store_elements_fresh zeroData (json.storeStruct set_Data) _ _
              (decode_records l H) [] 0) as [k Hfold].
  cbn [app repeat List.length] in Hfold.
  unfold json.storeStruct at 1. cbn [fold_left fst snd].
  change (set_Response "data" (json.JArray (List.map ast_record l)) json.nil_slice)
    with (json.storeSlice zeroData (json.storeStruct set_Data)
            (json.JArray (List.map ast_record l)) json.nil_slice).
  unfold json.storeSlice, json.nil_slice. rewrite Hfold.
  cbn [json.len json.array]. rewrite Nat.ltb_irrefl.
  destruct l as [|d l].
  - eexists. split; reflexivity.
  - change (Nat.eqb (List.length (d :: l)) 0) with false. cbv iota.
    eexists. split; [reflexivity|].
    unfold json.elements. cbn [json.len json.array].
    apply take_app_length.
Qed.

Lemma json_Unmarshal_render (l : list forgeApiResponseData) :
  Forall (fun x => listed x = true) l ->
  json_Unmarshal (render l) = ({| ForgeApiResponseData := l |}, None).
Proof.
  intros H. unfold json_Unmarshal. rewrite (parse_render l H).
  destruct (decode_listing l H) as [s [-> ->]]. reflexivity.
Qed.

(** X12. Round trip of a listing.  For records of plain strings, the
    text that lists them under data, each with id and attributes (name and
    scope), decodes to exactly those records, in order, with a nil error;
    and when the list command prints that text, exists answers true
    exactly when one of the records bears the name, with a nil error. *)
Theorem listing_round_trip (l : list forgeApiResponseData) :
  Forall (fun d => listed d = true) l ->
  json_Unmarshal (render l) = ({| ForgeApiResponseData := l |}, None)
  /\ forall (host : Host) (f : forge) (org name : string),
       Output host (list_argv org) = (render l, None) ->
       (fst (result (forge_exists host f org name)) = true <->
        exists d, In d l /\ Name (Attributes d) = name)
       /\ snd (result (forge_exists host f org name)) = None.
Proof.
  intros H. pose proof (json_Unmarshal_render l H) as Hu. split; [exact Hu|].
  intros host f org name Hout. rewrite forge_exists_result, Hout, Hu.
  split; [apply find_name_true | apply find_name_no_error].
Qed.

Lemma listing_round_trip_witness :
  json_Unmarshal
    (render [ {| Id := "1"; Attributes := {| Name := "load-1"; Scope := "acme"; Org := "" |} |};
              {| Id := "2"; Attributes := {| Name := "soak"; Scope := "acme"; Org := "" |} |} ])
  = ({| ForgeApiResponseData :=
          [ {| Id := "1"; Attributes := {| Name := "load-1"; Scope := "acme"; Org := "" |} |};
            {| Id := "2"; Attributes := {| Name := "soak"; Scope := "acme"; Org := "" |} |} ] |},
     None).
Proof.
  apply (proj1 (listing_round_trip
                  [ {| Id := "1";
                       Attributes := {| Name := "load-1"; Scope := "acme"; Org := "" |} |};
                    {| Id := "2";
                       Attributes := {| Name := "soak"; Scope := "acme"; Org := "" |} |} ]
                  ltac:(repeat constructor))).
Defined.

(** X13. The order of the listing does not matter to exists: two hosts
    whose listings decode, without error, to the same records in a
    different order get the same answer. *)
Theorem exists_order_irrelevant (host host' : Host) (f f' : forge) (org org' name : string)
    (out out' : string) (r r' : forgeApiResponse) :
  Output host (list_argv org) = (out, None) -> json_Unmarshal out = (r, None) ->
  Output host' (list_argv org') = (out', None) -> json_Unmarshal out' = (r', None) ->
  Permutation (ForgeApiResponseData r) (ForgeApiResponseData r') ->
  result (forge_exists host f org name) = result (forge_exists host' f' org' name).
Proof.
  intros Ho Hu Ho' Hu' Hperm.
  rewrite !forge_exists_result, Ho, Hu, Ho', Hu'.
  pose proof (find_name_no_error (ForgeApiResponseData r) name) as E.
  pose proof (find_name_no_error (ForgeApiResponseData r') name) as E'.
  pose proof (find_name_true (ForgeApiResponseData r) name) as T.
  pose proof (find_name_true (ForgeApiResponseData r') name) as T'.
  destruct (find_name (ForgeApiResponseData r) name) as [b e].
  destruct (find_name (ForgeApiResponseData r') name) as [b' e'].
  simpl in *. subst e e'. f_equal.
  apply eq_true_iff_eq. rewrite T, T'. split; intros [d [Hin Hn]]; exists d; split; auto.
  - eapply Permutation_in; [exact Hperm | exact Hin].
  - eapply Permutation_in; [symmetry; exact Hperm | exact Hin].
Qed.

Lemma exists_order_irrelevant_witness :
  result (forge_exists
            (host_of ("", None)
               (dq "{'data':[{'attributes':{'name':'a'}},{'attributes':{'name':'b'}}]}", None)
               ("", None) ("", None)) anyForge "acme" "b")
  = result (forge_exists
              (host_of ("", None)
                 (dq "{'data':[{'attributes':{'name':'b'}},{'attributes':{'name':'a'}}]}", None)
                 ("", None) ("", None)) anyForge "acme" "b").
Proof.
  apply (exists_order_irrelevant _ _ _ _ "acme" "acme" "b"
           (dq "{'data':[{'attributes':{'name':'a'}},{'attributes':{'name':'b'}}]}")
           (dq "{'data':[{'attributes':{'name':'b'}},{'attributes':{'name':'a'}}]}")
           {| ForgeApiResponseData :=
                [ {| Id := ""; Attributes := {| Name := "a"; Scope := ""; Org := "" |} |};
                  {| Id := ""; Attributes := {| Name := "b"; Scope := ""; Org := "" |} |} ] |}
           {| ForgeApiResponseData :=
                [ {| Id := ""; Attributes := {| Name := "b"; Scope := ""; Org := "" |} |};
                  {| Id := ""; Attributes := {| Name := "a"; Scope := ""; Org := "" |} |} ] |}).
  - reflexivity.
  - vm_compute. reflexivity.
  - reflexivity.
  - vm_compute. reflexivity.
  - apply perm_swap.
Defined.
